(** * Build-environment packager: a shallow embedding of [app.py]

    The script zips four cache directories, splits the archive with the
    external [zip -s] tool when it is larger than 49 MiB, uploads every
    part to a chat endpoint and removes its temporary directory.

    Everything the script asks of its surroundings (environment variables,
    the file system, the zip library, sub-processes, HTTP) is answered by a
    [World] of oracles; everything it does to them is recorded, in order,
    in a trace of [event]s.  Python exceptions and [exit] are carried by a
    small writer/error monad [M]. *)

From Stdlib Require Import String Ascii List ZArith Lia Bool.
From Stdlib Require Import Sorting.Sorted Sorting.Permutation DecimalString.
Import ListNotations.
Open Scope list_scope.
Open Scope string_scope.

(* ================================================================= *)
(** ** Python values used by the script *)

Module Py.

(** Classes of exceptions deriving from [Exception] that the script can
    meet.  [SystemExit] is kept apart (see [abort]): it derives from
    [BaseException], so [except Exception] does not catch it. *)
Inductive exn : Type :=
| OSError
| ValueError
| TypeError
| CalledProcessError
| RequestException
| AttributeError.

(** What a call into a library or the operating system does: it returns
    or it raises. *)
Inductive outcome (A : Type) : Type :=
| Returns (a : A)
| Raises (e : exn).
Arguments Returns {A} a.
Arguments Raises {A} e.

(** [str(x)] for an optional string, as an f-string renders it. *)
Definition str (o : option string) : string :=
  match o with
  | Some s => s
  | None => "None"
  end.

(** [str(n)] for an integer. *)
Definition str_int (z : Z) : string := NilEmpty.string_of_int (Z.to_int z).

(** Truthiness of an optional string: [None] and [""] are false. *)
Definition truthy (o : option string) : bool :=
  match o with
  | None => false
  | Some s => negb (s =? "")
  end.

Definition is_sep (c : ascii) : bool := Ascii.eqb c "/".

Fixpoint has_sep (s : string) : bool :=
  match s with
  | EmptyString => false
  | String c r => is_sep c || has_sep r
  end.

Definition startswith_sep (s : string) : bool :=
  match s with
  | String c _ => is_sep c
  | EmptyString => false
  end.

Fixpoint endswith_sep (s : string) : bool :=
  match s with
  | EmptyString => false
  | String c EmptyString => is_sep c
  | String _ r => endswith_sep r
  end.

(** [os.path.join(a, b)] (posixpath, two arguments). *)
Definition join (a b : string) : string :=
  if startswith_sep b then b
  else if (a =? "") || endswith_sep a then a ++ b
  else a ++ "/" ++ b.

(** [os.path.basename(p)]: what follows the last separator. *)
Fixpoint basename (p : string) : string :=
  match p with
  | EmptyString => EmptyString
  | String c r =>
      if has_sep r then basename r
      else if is_sep c then r
      else p
  end.

(** [p[:i]] with [i = p.rfind('/') + 1]: up to and including the last
    separator. *)
Fixpoint head_of (p : string) : string :=
  match p with
  | EmptyString => EmptyString
  | String c r =>
      if has_sep r then String c (head_of r)
      else if is_sep c then "/"
      else EmptyString
  end.

Fixpoint all_sep (s : string) : bool :=
  match s with
  | EmptyString => true
  | String c r => is_sep c && all_sep r
  end.

(** [s.rstrip('/')]. *)
Fixpoint rstrip_sep (s : string) : string :=
  match s with
  | EmptyString => EmptyString
  | String c r =>
      match rstrip_sep r with
      | EmptyString => if is_sep c then EmptyString else String c EmptyString
      | r' => String c r'
      end
  end.

(** [os.path.dirname(p)]. *)
Definition dirname (p : string) : string :=
  let head := head_of p in
  if negb (head =? "") && negb (all_sep head) then rstrip_sep head else head.

(** [sorted(l)] on strings.  The order on [str] is total and
    antisymmetric, so every sorting algorithm returns the same list;
    insertion is the one written here. *)
Fixpoint insert (x : string) (l : list string) : list string :=
  match l with
  | [] => [x]
  | y :: l' => if String.leb x y then x :: l else y :: insert x l'
  end.

Definition sorted (l : list string) : list string := fold_right insert [] l.

End Py.

(* ================================================================= *)
(** ** The file system seen by the archiver *)

(** A path names nothing, a regular file, or a directory with its
    entries in listing order. *)
#[warnings="-register-all"]
Inductive node : Type :=
| File
| Dir (entries : list (string * node)).

Definition is_dir_node (n : node) : bool :=
  match n with
  | Dir _ => true
  | File => false
  end.

Definition dirnames (es : list (string * node)) : list string :=
  map fst (filter (fun e => is_dir_node (snd e)) es).

Definition filenames (es : list (string * node)) : list string :=
  map fst (filter (fun e => negb (is_dir_node (snd e))) es).

(** [os.walk(top)], top-down: a directory yields [(top, dirs, files)] and
    then the walks of its sub-directories; anything else yields nothing
    (the error of listing a non-directory is swallowed by [os.walk]). *)
Fixpoint walk_node (top : string) (n : node) : list (string * list string * list string) :=
  match n with
  | File => []
  | Dir es =>
      (top, dirnames es, filenames es)
        :: (fix descend (l : list (string * node)) :=
              match l with
              | [] => []
              | (name, child) :: l' => (walk_node (Py.join top name) child ++ descend l')%list
              end) es
  end.

(* ================================================================= *)
(** ** Effects: traces, exceptions and [exit] *)

(** What [print] is called with, one constructor per call site of the
    script, carrying the interpolated values. *)
Inductive console : Type :=
| MsgCredentialsMissing
| MsgMessageSent (text : string)
| MsgMessageError
| MsgFileNotFound (file_path : string)
| MsgUploading (name : string)
| MsgUploaded (name : string)
| MsgUploadRejected (name : string)
| MsgUploadError (name : string)
| MsgSourceMissing (source_path : string)
| MsgAdded (source_path : string)
| MsgCreated (full_zip_path : string)
| MsgZipError (e : Py.exn)
| MsgZipSize (file_size : Z)
| MsgSplitting (chunk_mb : Z)
| MsgSplitParts (n : nat)
| MsgSplitError
| MsgNoSplit
| MsgCleaningUp
| MsgCleanupComplete.

(** The observable actions of a run. *)
Inductive event : Type :=
| EvPrint (m : console)
| EvPostMessage (url : string) (chat : option string) (text : string)
| EvPostDocument (url : string) (chat : option string) (caption file_path : string)
| EvOpen (file_path : string)
| EvClose (file_path : string)
| EvMakedirs (path : string)
| EvZipOpen (path : string)
| EvZipWrite (file_path arcname : string)
| EvZipClose (path : string)
| EvRun (command : list string) (cwd : option string)
| EvRemove (path : string).

(** Why a computation stopped early. *)
Inductive abort : Type :=
| Raised (e : Py.exn)
| SystemExit (code : Z).

Inductive res (A : Type) : Type :=
| Ok (a : A)
| Fail (s : abort).
Arguments Ok {A} a.
Arguments Fail {A} s.

Definition M (A : Type) : Type := (list event * res A)%type.

Definition ret {A} (a : A) : M A := ([], Ok a).

Definition bind {A B} (m : M A) (f : A -> M B) : M B :=
  match m with
  | (t, Ok a) => let (t', r) := f a in ((t ++ t')%list, r)
  | (t, Fail s) => (t, Fail s)
  end.

Notation "x <- m ;; k" := (bind m (fun x => k))
  (at level 61, m at next level, right associativity).
Notation "m ;; k" := (bind m (fun _ => k))
  (at level 61, right associativity).

Definition emit (e : event) : M unit := ([e], Ok tt).
Definition print (m : console) : M unit := emit (EvPrint m).
Definition raise {A} (e : Py.exn) : M A := ([], Fail (Raised e)).
Definition exit {A} (code : Z) : M A := ([], Fail (SystemExit code)).

(** The outcome of a call, turned into a computation. *)
Definition lift {A} (o : Py.outcome A) : M A :=
  match o with
  | Py.Returns a => ret a
  | Py.Raises e => raise e
  end.

(** A call that is recorded in the trace and then returns or raises. *)
Definition call {A} (e : event) (o : Py.outcome A) : M A := emit e ;; lift o.

(** [try: m  except <classes>: handler e]; [handler e = None] when the
    clause does not match the class of [e]. *)
Definition try_except {A} (m : M A) (handler : Py.exn -> option (M A)) : M A :=
  match m with
  | (t, Fail (Raised e)) =>
      match handler e with
      | Some k => let (t', r) := k in ((t ++ t')%list, r)
      | None => m
      end
  | _ => m
  end.

(** [try: m  finally: fin]; also the exit of a [with] block. *)
Definition try_finally {A} (m : M A) (fin : M unit) : M A :=
  let (t, r) := m in
  let (t', r') := fin in
  ((t ++ t')%list, match r' with Ok _ => r | Fail s => Fail s end).

Definition trace {A} (m : M A) : list event := fst m.
Definition result {A} (m : M A) : res A := snd m.

(** Library and system calls raise exceptions; only the script's own
    [exit] produces [SystemExit]. *)
Definition raises_only {A} (m : M A) : Prop :=
  forall code, result m <> Fail (SystemExit code).

(* ================================================================= *)
(** ** The world around the script *)

(** The answer of the chat endpoint to a document upload: the truth of
    [response.json().get("ok")] when the request completes with a 2xx
    status and a JSON object as body; a
    [requests.exceptions.RequestException] (no connection, a time-out, a
    status of 4xx or 5xx); or a 2xx status with a JSON body that is not
    an object (a list, a string, a number, [null]), on which
    [result.get] of line 51 raises [AttributeError]. *)
Inductive doc_reply : Type :=
| DocReply (ok : bool)
| DocRequestException
| DocNotAnObject.

Record World : Type := {
  (** [os.environ.get] *)
  environ : string -> option string;
  (** [os.path.expanduser] *)
  expanduser : string -> string;
  (** what a path names while the archive is built; the tree is a
      snapshot, it does not change during the walk *)
  resolve : string -> option node;
  (** [os.path.relpath(path, start)]; it depends on the working directory *)
  relpath : string -> string -> Py.outcome string;
  (** [os.path.commonpath(paths)] *)
  commonpath : list string -> Py.outcome string;
  (** [os.makedirs(path, exist_ok=True)] *)
  makedirs : string -> Py.outcome unit;
  (** [zipfile.ZipFile(path, "w", ZIP_DEFLATED)], [zf.write], [zf.close] *)
  zip_open : string -> Py.outcome unit;
  zip_write : string -> string -> Py.outcome unit;
  zip_close : string -> Py.outcome unit;
  (** [os.path.getsize] *)
  getsize : string -> Py.outcome Z;
  (** a sub-process: its exit status, or [None] when it cannot be started
      ([OSError]) *)
  spawn : list string -> option string -> option Z;
  (** [os.remove]: [false] when it raises [OSError] *)
  remove : string -> bool;
  (** [glob.glob(pattern)], in directory order *)
  glob : string -> list string;
  (** [os.path.exists] and [open(path, "rb")] when a part is uploaded *)
  part_exists : string -> bool;
  open_rb : string -> Py.outcome unit;
  (** [requests.post(url, json=...)] followed by [raise_for_status]:
      [true] when neither raises a [RequestException] *)
  post_message : string -> option string -> string -> bool;
  (** [requests.post(url, files=..., data=...)], [raise_for_status], [json] *)
  post_document : string -> option string -> string -> string -> doc_reply
}.

Definition exists_ (w : World) (path : string) : bool :=
  match resolve w path with
  | Some _ => true
  | None => false
  end.

Definition isdir (w : World) (path : string) : bool :=
  match resolve w path with
  | Some n => is_dir_node n
  | None => false
  end.

Definition walk (w : World) (top : string) : list (string * list string * list string) :=
  match resolve w top with
  | Some n => walk_node top n
  | None => []
  end.

(** The same world with another answer to [os.path.commonpath]. *)
Definition set_commonpath (w : World) (f : list string -> Py.outcome string) : World :=
  {| environ := environ w;
     expanduser := expanduser w;
     resolve := resolve w;
     relpath := relpath w;
     commonpath := f;
     makedirs := makedirs w;
     zip_open := zip_open w;
     zip_write := zip_write w;
     zip_close := zip_close w;
     getsize := getsize w;
     spawn := spawn w;
     remove := remove w;
     glob := glob w;
     part_exists := part_exists w;
     open_rb := open_rb w;
     post_message := post_message w;
     post_document := post_document w |}.

(* ================================================================= *)
(** ** The script *)

Definition TELEGRAM_API_BASE_URL : string := "https://api.telegram.org/bot".
Definition MAX_TELEGRAM_CHUNK_MB : Z := 49.
Definition MAX_TELEGRAM_CHUNK_BYTES : Z := MAX_TELEGRAM_CHUNK_MB * 1024 * 1024.

(** The module-level variables read from the environment. *)
Record Globals : Type := {
  telegram_token : option string;
  chat_id : option string;
  run_number : option string;
  github_workspace : option string
}.

Definition read_globals (w : World) : Globals :=
  {| telegram_token := environ w "TELEGRAM_BOT_TOKEN";
     chat_id := environ w "TELEGRAM_CHAT_ID";
     run_number := environ w "GITHUB_RUN_NUMBER";
     github_workspace := environ w "GITHUB_WORKSPACE" |}.

Section Script.

Variable w : World.
Variable g : Globals.

Definition send_telegram_message (text : string) : M unit :=
  let url := TELEGRAM_API_BASE_URL ++ Py.str (telegram_token g) ++ "/sendMessage" in
  emit (EvPostMessage url (chat_id g) text) ;;
  if post_message w url (chat_id g) text
  then print (MsgMessageSent text)
  else print MsgMessageError ;; exit 1.

Definition send_telegram_document (file_path caption : string) : M bool :=
  if negb (part_exists w file_path)
  then print (MsgFileNotFound file_path) ;; ret false
  else
    let url := TELEGRAM_API_BASE_URL ++ Py.str (telegram_token g) ++ "/sendDocument" in
    call (EvOpen file_path) (open_rb w file_path) ;;
    print (MsgUploading (Py.basename file_path)) ;;
    try_finally
      (emit (EvPostDocument url (chat_id g) caption file_path) ;;
       match post_document w url (chat_id g) caption file_path with
       | DocReply true => print (MsgUploaded (Py.basename file_path)) ;; ret true
       | DocReply false => print (MsgUploadRejected (Py.basename file_path)) ;; ret false
       | DocRequestException => print (MsgUploadError (Py.basename file_path)) ;; ret false
       | DocNotAnObject => raise Py.AttributeError
       end)
      (emit (EvClose file_path)).

(** The body of [for file in files] (lines 81-85). *)
Definition add_file (source_paths : list string) (source_path root file : string) : M unit :=
  let file_path := Py.join root file in
  start <- (if isdir w source_path
            then ret (Py.dirname source_path)
            else lift (commonpath w source_paths)) ;;
  arcname <- lift (relpath w file_path start) ;;
  call (EvZipWrite file_path arcname) (zip_write w file_path arcname).

Fixpoint add_files (source_paths : list string) (source_path root : string)
    (files : list string) : M unit :=
  match files with
  | [] => ret tt
  | file :: files' =>
      add_file source_paths source_path root file ;;
      add_files source_paths source_path root files'
  end.

(** [for root, _, files in os.walk(source_path)] (lines 80-85). *)
Fixpoint add_walk (source_paths : list string) (source_path : string)
    (triples : list (string * list string * list string)) : M unit :=
  match triples with
  | [] => ret tt
  | (root, _, files) :: triples' =>
      add_files source_paths source_path root files ;;
      add_walk source_paths source_path triples'
  end.

(** [for source_path in source_paths] (lines 75-86). *)
Fixpoint add_sources (source_paths todo : list string) : M unit :=
  match todo with
  | [] => ret tt
  | source_path :: todo' =>
      (if negb (exists_ w source_path)
       then print (MsgSourceMissing source_path)
       else add_walk source_paths source_path (walk w source_path) ;;
            print (MsgAdded source_path)) ;;
      add_sources source_paths todo'
  end.

(** The [try] block of lines 73-87. *)
Definition create_archive (full_zip_path : string) (source_paths : list string) : M unit :=
  call (EvZipOpen full_zip_path) (zip_open w full_zip_path) ;;
  try_finally
    (add_sources source_paths source_paths)
    (call (EvZipClose full_zip_path) (zip_close w full_zip_path)) ;;
  print (MsgCreated full_zip_path).

Definition split_command (temp_dir output_zip_base_name full_zip_path : string) : list string :=
  [ "zip";
    "-s";
    Py.str_int MAX_TELEGRAM_CHUNK_MB ++ "m";
    Py.join temp_dir (output_zip_base_name ++ "_part.zip");
    full_zip_path ].

(** Starting a sub-process and waiting for its exit status. *)
Definition popen (command : list string) (cwd : option string) : M Z :=
  emit (EvRun command cwd) ;;
  match spawn w command cwd with
  | Some status => ret status
  | None => raise Py.OSError
  end.

(** [subprocess.run(command, check=True, cwd=cwd)]. *)
Definition subprocess_run_check (command : list string) (cwd : option string) : M unit :=
  status <- popen command cwd ;;
  if (status =? 0)%Z then ret tt else raise Py.CalledProcessError.

(** [subprocess.run(command)]: the exit status is not looked at. *)
Definition subprocess_run (command : list string) : M unit :=
  popen command None ;; ret tt.

(** [os.remove(path)]. *)
Definition os_remove (path : string) : M unit :=
  emit (EvRemove path) ;;
  if remove w path then ret tt else raise Py.OSError.

Definition package_and_split_files (temp_dir output_zip_base_name : string)
    (source_paths : list string) (split_bytes : Z) : M (list string) :=
  call (EvMakedirs temp_dir) (makedirs w temp_dir) ;;
  let full_zip_path := Py.join temp_dir (output_zip_base_name ++ ".zip") in
  created <- try_except
               (create_archive full_zip_path source_paths ;; ret true)
               (fun e => Some (print (MsgZipError e) ;; ret false)) ;;
  if negb created then ret []
  else
    file_size <- lift (getsize w full_zip_path) ;;
    print (MsgZipSize file_size) ;;
    if (file_size >? split_bytes)%Z
    then
      print (MsgSplitting MAX_TELEGRAM_CHUNK_MB) ;;
      try_except
        (subprocess_run_check
           (split_command temp_dir output_zip_base_name full_zip_path) (Some temp_dir) ;;
         os_remove full_zip_path ;;
         let files_to_upload :=
           Py.sorted (glob w (Py.join temp_dir (output_zip_base_name ++ "_part.z*"))) in
         print (MsgSplitParts (length files_to_upload)) ;;
         ret files_to_upload)
        (fun e =>
           match e with
           | Py.CalledProcessError => Some (print MsgSplitError ;; ret [])
           | _ => None
           end)
    else
      print MsgNoSplit ;;
      ret [full_zip_path].

(** The caption of line 155; [i] is the 0-based index of [enumerate]
    and [n] is [len(packaged_files)]. *)
Definition caption_text (i n : nat) (file_path : string) : string :=
  "Build Env (" ++ Py.str (run_number g) ++ ") Part "
    ++ Py.str_int (Z.of_nat (i + 1)) ++ "/" ++ Py.str_int (Z.of_nat n)
    ++ ": " ++ Py.basename file_path.

(** The loop of lines 153-158 from index [i] on; its value is
    [all_uploads_successful]. *)
Fixpoint upload_loop (n i : nat) (files : list string) : M bool :=
  match files with
  | [] => ret true
  | file_path :: files' =>
      sent <- send_telegram_document file_path (caption_text i n file_path) ;;
      if sent then upload_loop n (S i) files' else ret false
  end.

Definition upload_parts (packaged_files : list string) : M bool :=
  upload_loop (length packaged_files) 0 packaged_files.

Definition MSG_STARTING : string :=
  "Starting packaging and upload of build environment files...".
Definition MSG_PACKAGING_FAILED : string :=
  "Failed to package and split build environment files.".
Definition MSG_UPLOADING : string :=
  "Uploading packaged build environment in parts...".
Definition MSG_SUCCESS : string :=
  "Successfully uploaded all packaged build environment files.".
Definition MSG_WARNING : string :=
  "WARNING: Some packaged build environment files failed to upload.".

Definition temp_packaging_dir : string := "telegram_package_temp".

(** Lines 165-168. *)
Definition cleanup : M unit :=
  print MsgCleaningUp ;;
  subprocess_run ["rm"; "-rf"; temp_packaging_dir] ;;
  print MsgCleanupComplete.

(** Lines 151-168: what follows a non-empty part list. *)
Definition upload_and_cleanup (packaged_files : list string) : M unit :=
  send_telegram_message MSG_UPLOADING ;;
  all_uploads_successful <- upload_parts packaged_files ;;
  (if all_uploads_successful : bool
   then send_telegram_message MSG_SUCCESS
   else send_telegram_message MSG_WARNING) ;;
  cleanup.

(** Lines 122-168. *)
Definition main_execution : M unit :=
  send_telegram_message MSG_STARTING ;;
  let pub_cache_path := expanduser w "~/.pub-cache" in
  let gradle_caches_path := expanduser w "~/.gradle/caches" in
  let gradle_wrapper_path := expanduser w "~/.gradle/wrapper" in
  android_project_path <-
    match github_workspace g with
    | Some workspace => ret (Py.join workspace "android")
    | None => raise Py.TypeError
    end ;;
  let source_dirs_to_package :=
    [pub_cache_path; gradle_caches_path; gradle_wrapper_path; android_project_path] in
  let output_zip_name := "full_build_env_" ++ Py.str (run_number g) in
  packaged_files <-
    package_and_split_files temp_packaging_dir output_zip_name
      source_dirs_to_package MAX_TELEGRAM_CHUNK_BYTES ;;
  match packaged_files with
  | [] => send_telegram_message MSG_PACKAGING_FAILED ;; exit 1
  | _ :: _ => upload_and_cleanup packaged_files
  end.

End Script.

(** The whole module, from line 14 on. *)
Definition script (w : World) : M unit :=
  let g := read_globals w in
  if negb (Py.truthy (telegram_token g)) || negb (Py.truthy (chat_id g))
  then print MsgCredentialsMissing ;; exit 1
  else main_execution w g.

(** The exit status of the interpreter: 0 at the end of the module, the
    argument of [exit], and 1 after an uncaught exception. *)
Definition exit_status {A} (r : res A) : Z :=
  match r with
  | Ok _ => 0
  | Fail (SystemExit code) => code
  | Fail (Raised _) => 1
  end.

(** Whether the [rm -rf] of line 167 was run. *)
Definition is_cleanup (e : event) : bool :=
  match e with
  | EvRun command None =>
      if list_eq_dec string_dec command ["rm"; "-rf"; temp_packaging_dir]
      then true else false
  | _ => false
  end.

Definition cleanup_reached (t : list event) : bool := existsb is_cleanup t.

(** The status messages and the documents of a trace, in order. *)
Definition messages (t : list event) : list string :=
  flat_map (fun e => match e with EvPostMessage _ _ text => [text] | _ => [] end) t.

Definition documents (t : list event) : list (string * string) :=
  flat_map (fun e => match e with
                     | EvPostDocument _ _ caption file_path => [(file_path, caption)]
                     | _ => []
                     end) t.

Definition commands (t : list event) : list (list string) :=
  flat_map (fun e => match e with EvRun c _ => [c] | _ => [] end) t.

Definition archive_entries (t : list event) : list (string * string) :=
  flat_map (fun e => match e with
                     | EvZipWrite file_path arcname => [(file_path, arcname)]
                     | _ => []
                     end) t.

(* ================================================================= *)
(** ** Views of a run *)

(** Whether the endpoint takes the status message [text]. *)
Definition delivered (w : World) (g : Globals) (text : string) : bool :=
  post_message w (TELEGRAM_API_BASE_URL ++ Py.str (telegram_token g) ++ "/sendMessage")
    (chat_id g) text.

(** The arguments of the call of line 140. *)
Definition source_dirs (w : World) (workspace : string) : list string :=
  [expanduser w "~/.pub-cache"; expanduser w "~/.gradle/caches";
   expanduser w "~/.gradle/wrapper"; Py.join workspace "android"].

Definition packaging (w : World) (workspace : string) : M (list string) :=
  package_and_split_files w temp_packaging_dir
    ("full_build_env_" ++ Py.str (run_number (read_globals w))) (source_dirs w workspace)
    MAX_TELEGRAM_CHUNK_BYTES.

(** Lines 147-168. *)
Definition after_packaging (w : World) (packaged_files : list string) : M unit :=
  match packaged_files with
  | [] => send_telegram_message w (read_globals w) MSG_PACKAGING_FAILED ;; exit 1
  | _ :: _ => upload_and_cleanup w (read_globals w) packaged_files
  end.

Definition credentials_set (w : World) : bool :=
  Py.truthy (telegram_token (read_globals w)) && Py.truthy (chat_id (read_globals w)).

(** An entry of the archive as the naming rule for directories gives it:
    a file met while walking one of the source paths, named relative to
    the parent directory of that source path. *)
Definition named_from_parent (w : World) (source_paths : list string)
    (file_path arcname : string) : Prop :=
  exists source_path root dirs files file,
    In source_path source_paths /\
    isdir w source_path = true /\
    In (root, dirs, files) (walk w source_path) /\
    In file files /\
    file_path = Py.join root file /\
    relpath w file_path (Py.dirname source_path) = Py.Returns arcname.

(** The events of archive construction: the zip library and [print],
    nothing else. *)
Definition entry_ok (w : World) (source_paths : list string) (e : event) : Prop :=
  match e with
  | EvZipWrite file_path arcname => named_from_parent w source_paths file_path arcname
  | EvZipOpen _ | EvZipClose _ | EvPrint _ => True
  | _ => False
  end.

(** What [package_and_split_files] can do: archive entries named from the
    parent of their source path, the one split command run in the
    temporary directory, and the removal of the unsplit archive. *)
Definition package_event (w : World) (temp_dir base : string)
    (source_paths : list string) (e : event) : Prop :=
  match e with
  | EvZipWrite file_path arcname => named_from_parent w source_paths file_path arcname
  | EvRun command cwd =>
      command = split_command temp_dir base (Py.join temp_dir (base ++ ".zip"))
      /\ cwd = Some temp_dir
  | EvRemove path => path = Py.join temp_dir (base ++ ".zip")
  | EvMakedirs path => path = temp_dir
  | EvZipOpen _ | EvZipClose _ | EvPrint _ => True
  | _ => False
  end.

(* ================================================================= *)
(** ** The segments written by the split tool *)

(** The names [zip -s] gives to the segments of a split archive
    [<name>.zip]: segment [i] is [<name>.z01], [<name>.z02], ... with the
    number written on two digits at least (so [z99] is followed by
    [z100]), and the last segment is [<name>.zip] itself. *)
Definition split_suffix (i : nat) : string :=
  "z" ++ (if (i <? 10)%nat then "0" else "") ++ Py.str_int (Z.of_nat i).

Definition segment_suffixes (numbered : nat) : list string :=
  (map split_suffix (seq 1 numbered) ++ ["zip"])%list.

(** The segments of the archive [<base>_part.zip] in [temp_dir], in the
    order in which they were written. *)
Definition segment_paths (temp_dir base : string) (numbered : nat) : list string :=
  map (fun suffix => Py.join temp_dir (base ++ "_part." ++ suffix))
      (segment_suffixes numbered).

Definition le (a b : string) : Prop := String.leb a b = true.

Fixpoint strongly_sortedb (l : list string) : bool :=
  match l with
  | [] => true
  | x :: l' => forallb (String.leb x) l' && strongly_sortedb l'
  end.

(* ================================================================= *)
(** ** Further views of a trace *)

(** The upload handles opened and closed, the files removed and the
    directories created, in order. *)
Definition opens (t : list event) : list string :=
  flat_map (fun e => match e with EvOpen file_path => [file_path] | _ => [] end) t.

Definition closes (t : list event) : list string :=
  flat_map (fun e => match e with EvClose file_path => [file_path] | _ => [] end) t.

Definition removals (t : list event) : list string :=
  flat_map (fun e => match e with EvRemove path => [path] | _ => [] end) t.

(** The files a walk meets, in the order of the two nested loops of
    lines 80-82. *)
Definition walk_files (triples : list (string * list string * list string)) : list string :=
  flat_map (fun triple => map (Py.join (fst (fst triple))) (snd triple)) triples.

(** The files below the source paths, in the order of the source paths. *)
Definition expected_files (w : World) (source_paths : list string) : list string :=
  flat_map (fun source_path => walk_files (walk w source_path)) source_paths.

(** The files handed to [zf.write], in order. *)
Definition written (t : list event) : list string := map fst (archive_entries t).

(** [m] writes an initial segment of [files], and all of them when it
    completes. *)
Definition writes_within {A} (m : M A) (files : list string) : Prop :=
  (exists rest, files = (written (trace m) ++ rest)%list)
  /\ (forall a, result m = Ok a -> written (trace m) = files).

(** The two URLs of lines 26 and 42. *)
Definition message_url (g : Globals) : string :=
  TELEGRAM_API_BASE_URL ++ Py.str (telegram_token g) ++ "/sendMessage".

Definition document_url (g : Globals) : string :=
  TELEGRAM_API_BASE_URL ++ Py.str (telegram_token g) ++ "/sendDocument".

(** A request of the run goes to the configured bot and chat. *)
Definition configured_request (w : World) (e : event) : Prop :=
  match e with
  | EvPostMessage url chat _ =>
      url = message_url (read_globals w) /\ chat = environ w "TELEGRAM_CHAT_ID"
  | EvPostDocument url chat _ _ =>
      url = document_url (read_globals w) /\ chat = environ w "TELEGRAM_CHAT_ID"
  | _ => True
  end.

(** The summary of lines 160-163. *)
Definition summary_text (all_uploads_successful : bool) : string :=
  if all_uploads_successful then MSG_SUCCESS else MSG_WARNING.

(** A trace that ends with the request for [text] and the report of its
    failure. *)
Definition ends_with_lost_message (t : list event) (text : string) : Prop :=
  exists before url chat,
    t = (before ++ [EvPostMessage url chat text; EvPrint MsgMessageError])%list.

(** How a call of [package_and_split_files] ended, with what it did and
    returned. *)
Inductive packaging_end : Type :=
| MakedirsRaised (e : Py.exn)
| CreationFailed (e : Py.exn)
| GetsizeRaised (e : Py.exn)
| NoSplitNeeded (file_size : Z)
| SplitNotStarted (file_size : Z)
| SplitFailed (file_size status : Z)
| RemoveFailed (file_size : Z)
| SplitDone (file_size : Z).

Definition ended (w : World) (temp_dir base : string) (source_paths : list string)
    (split_bytes : Z) (how : packaging_end) : Prop :=
  let full_zip_path := Py.join temp_dir (base ++ ".zip") in
  let creation := create_archive w full_zip_path source_paths in
  let command := split_command temp_dir base full_zip_path in
  let pattern := Py.join temp_dir (base ++ "_part.z*") in
  let packaged := package_and_split_files w temp_dir base source_paths split_bytes in
  match how with
  | MakedirsRaised e =>
      makedirs w temp_dir = Py.Raises e
      /\ packaged = ([EvMakedirs temp_dir], Fail (Raised e))
  | CreationFailed e =>
      makedirs w temp_dir = Py.Returns tt
      /\ result creation = Fail (Raised e)
      /\ packaged =
         (EvMakedirs temp_dir :: trace creation ++ [EvPrint (MsgZipError e)], Ok [])%list
  | GetsizeRaised e =>
      makedirs w temp_dir = Py.Returns tt
      /\ result creation = Ok tt
      /\ getsize w full_zip_path = Py.Raises e
      /\ packaged = (EvMakedirs temp_dir :: trace creation, Fail (Raised e))
  | NoSplitNeeded file_size =>
      makedirs w temp_dir = Py.Returns tt
      /\ result creation = Ok tt
      /\ getsize w full_zip_path = Py.Returns file_size
      /\ (file_size <= split_bytes)%Z
      /\ packaged =
         (EvMakedirs temp_dir :: trace creation
            ++ [EvPrint (MsgZipSize file_size); EvPrint MsgNoSplit],
          Ok [full_zip_path])%list
  | SplitNotStarted file_size =>
      makedirs w temp_dir = Py.Returns tt
      /\ result creation = Ok tt
      /\ getsize w full_zip_path = Py.Returns file_size
      /\ (file_size > split_bytes)%Z
      /\ spawn w command (Some temp_dir) = None
      /\ packaged =
         (EvMakedirs temp_dir :: trace creation
            ++ [EvPrint (MsgZipSize file_size);
                EvPrint (MsgSplitting MAX_TELEGRAM_CHUNK_MB);
                EvRun command (Some temp_dir)],
          Fail (Raised Py.OSError))%list
  | SplitFailed file_size status =>
      makedirs w temp_dir = Py.Returns tt
      /\ result creation = Ok tt
      /\ getsize w full_zip_path = Py.Returns file_size
      /\ (file_size > split_bytes)%Z
      /\ spawn w command (Some temp_dir) = Some status /\ status <> 0%Z
      /\ packaged =
         (EvMakedirs temp_dir :: trace creation
            ++ [EvPrint (MsgZipSize file_size);
                EvPrint (MsgSplitting MAX_TELEGRAM_CHUNK_MB);
                EvRun command (Some temp_dir); EvPrint MsgSplitError],
          Ok [])%list
  | RemoveFailed file_size =>
      makedirs w temp_dir = Py.Returns tt
      /\ result creation = Ok tt
      /\ getsize w full_zip_path = Py.Returns file_size
      /\ (file_size > split_bytes)%Z
      /\ spawn w command (Some temp_dir) = Some 0%Z
      /\ remove w full_zip_path = false
      /\ packaged =
         (EvMakedirs temp_dir :: trace creation
            ++ [EvPrint (MsgZipSize file_size);
                EvPrint (MsgSplitting MAX_TELEGRAM_CHUNK_MB);
                EvRun command (Some temp_dir); EvRemove full_zip_path],
          Fail (Raised Py.OSError))%list
  | SplitDone file_size =>
      makedirs w temp_dir = Py.Returns tt
      /\ result creation = Ok tt
      /\ getsize w full_zip_path = Py.Returns file_size
      /\ (file_size > split_bytes)%Z
      /\ spawn w command (Some temp_dir) = Some 0%Z
      /\ remove w full_zip_path = true
      /\ packaged =
         (EvMakedirs temp_dir :: trace creation
            ++ [EvPrint (MsgZipSize file_size);
                EvPrint (MsgSplitting MAX_TELEGRAM_CHUNK_MB);
                EvRun command (Some temp_dir); EvRemove full_zip_path;
                EvPrint (MsgSplitParts (length (Py.sorted (glob w pattern))))],
          Ok (Py.sorted (glob w pattern)))%list
  end.

(** How a run of the script ended. *)
Inductive run_end : Type :=
| NoCredentials
| StartLost
| NoWorkspace
| PackagingRaised (workspace : string) (e : Py.exn)
| NothingToUpload (workspace : string)
| UploadNoticeLost (workspace : string) (parts : list string)
| UploadRaised (workspace : string) (parts : list string) (e : Py.exn)
| SummaryLost (workspace : string) (parts : list string) (all_uploads_successful : bool)
| CleanedUp (workspace : string) (parts : list string) (all_uploads_successful : bool).

(** The run got as far as the call of line 140. *)
Definition reached_packaging (w : World) (workspace : string) : Prop :=
  credentials_set w = true
  /\ delivered w (read_globals w) MSG_STARTING = true
  /\ github_workspace (read_globals w) = Some workspace.

(** The run got as far as the upload loop. *)
Definition reached_uploads (w : World) (workspace : string) (parts : list string) : Prop :=
  reached_packaging w workspace
  /\ result (packaging w workspace) = Ok parts
  /\ parts <> []
  /\ delivered w (read_globals w) MSG_UPLOADING = true.

(** What a run that ended in a given way did and how it left. *)
Definition run_ended (w : World) (how : run_end) : Prop :=
  let g := read_globals w in
  let start := trace (send_telegram_message w g MSG_STARTING) in
  match how with
  | NoCredentials =>
      credentials_set w = false
      /\ script w = ([EvPrint MsgCredentialsMissing], Fail (SystemExit 1))
  | StartLost =>
      credentials_set w = true
      /\ delivered w g MSG_STARTING = false
      /\ script w = (start, Fail (SystemExit 1))
  | NoWorkspace =>
      credentials_set w = true
      /\ delivered w g MSG_STARTING = true
      /\ github_workspace g = None
      /\ script w = (start, Fail (Raised Py.TypeError))
  | PackagingRaised workspace e =>
      reached_packaging w workspace
      /\ result (packaging w workspace) = Fail (Raised e)
      /\ script w = ((start ++ trace (packaging w workspace))%list, Fail (Raised e))
  | NothingToUpload workspace =>
      reached_packaging w workspace
      /\ result (packaging w workspace) = Ok []
      /\ script w =
         ((start ++ trace (packaging w workspace)
             ++ trace (send_telegram_message w g MSG_PACKAGING_FAILED))%list,
          Fail (SystemExit 1))
  | UploadNoticeLost workspace parts =>
      reached_packaging w workspace
      /\ result (packaging w workspace) = Ok parts
      /\ parts <> []
      /\ delivered w g MSG_UPLOADING = false
      /\ script w =
         ((start ++ trace (packaging w workspace)
             ++ trace (send_telegram_message w g MSG_UPLOADING))%list,
          Fail (SystemExit 1))
  | UploadRaised workspace parts e =>
      reached_uploads w workspace parts
      /\ result (upload_parts w g parts) = Fail (Raised e)
      /\ script w =
         ((start ++ trace (packaging w workspace)
             ++ trace (send_telegram_message w g MSG_UPLOADING)
             ++ trace (upload_parts w g parts))%list,
          Fail (Raised e))
  | SummaryLost workspace parts b =>
      reached_uploads w workspace parts
      /\ result (upload_parts w g parts) = Ok b
      /\ delivered w g (summary_text b) = false
      /\ script w =
         ((start ++ trace (packaging w workspace)
             ++ trace (send_telegram_message w g MSG_UPLOADING)
             ++ trace (upload_parts w g parts)
             ++ trace (send_telegram_message w g (summary_text b)))%list,
          Fail (SystemExit 1))
  | CleanedUp workspace parts b =>
      reached_uploads w workspace parts
      /\ result (upload_parts w g parts) = Ok b
      /\ delivered w g (summary_text b) = true
      /\ script w =
         ((start ++ trace (packaging w workspace)
             ++ trace (send_telegram_message w g MSG_UPLOADING)
             ++ trace (upload_parts w g parts)
             ++ trace (send_telegram_message w g (summary_text b))
             ++ trace (cleanup w))%list,
          result (cleanup w))
  end.

(* ================================================================= *)
(** ** Concrete worlds *)

Module Sample.

Definition home_tree : node :=
  Dir [("hosted", Dir [("pkg.yaml", File)]); ("README", File)].

(** A runner with credentials, whose home directory holds [~/.pub-cache]
    and none of the other source paths.  The parameters choose whether
    the zip library works, the size of the archive, the exit status of
    [zip -s], what the glob finds afterwards, which status messages are
    delivered and which documents the endpoint accepts. *)
Definition runner (zip_works : bool) (archive_size zip_status : Z)
    (segments : list string) (delivers accepts : string -> bool) : World :=
  {| environ := fun name =>
       if name =? "TELEGRAM_BOT_TOKEN" then Some "T0K"
       else if name =? "TELEGRAM_CHAT_ID" then Some "42"
       else if name =? "GITHUB_RUN_NUMBER" then Some "7"
       else if name =? "GITHUB_WORKSPACE" then Some "/work"
       else None;
     expanduser := fun p =>
       match p with
       | String "~" rest => "/home/ci" ++ rest
       | _ => p
       end;
     resolve := fun p => if p =? "/home/ci/.pub-cache" then Some home_tree else None;
     relpath := fun p start => Py.Returns ("rel:" ++ start ++ ":" ++ p);
     commonpath := fun _ => Py.Raises Py.ValueError;
     makedirs := fun _ => Py.Returns tt;
     zip_open := fun _ => Py.Returns tt;
     zip_write := fun _ _ => if zip_works then Py.Returns tt else Py.Raises Py.OSError;
     zip_close := fun _ => Py.Returns tt;
     getsize := fun _ => Py.Returns archive_size;
     spawn := fun command _ =>
       match command with
       | tool :: _ => if tool =? "zip" then Some zip_status else Some 0%Z
       | [] => Some 0%Z
       end;
     remove := fun _ => true;
     glob := fun _ => segments;
     part_exists := fun _ => true;
     open_rb := fun _ => Py.Returns tt;
     post_message := fun _ _ text => delivers text;
     post_document := fun _ _ _ file_path => DocReply (accepts file_path) |}.

Definition always (_ : string) : bool := true.
Definition never (_ : string) : bool := false.
Definition MiB : Z := 1048576.

(** Every call succeeds and the archive is one MiB. *)
Definition quiet : World := runner true MiB 0 [] always always.

(** The zip library fails on the first file. *)
Definition zip_broken : World := runner false MiB 0 [] always always.

(** A 150 MiB archive on which [zip -s] exits with status 12. *)
Definition split_fails : World := runner true (150 * MiB) 12 [] always always.

(** The endpoint refuses every document. *)
Definition rejecting : World := runner true MiB 0 [] always never.

(** The endpoint refuses every document and the final warning cannot be
    delivered either. *)
Definition rejecting_mute : World :=
  runner true MiB 0 [] (fun text => negb (text =? MSG_WARNING)) never.

(** Every upload succeeds but the final summary cannot be delivered. *)
Definition mute_at_end : World :=
  runner true MiB 0 [] (fun text => negb (text =? MSG_SUCCESS)) always.

(** The globals of these runners. *)
Definition globals : Globals := read_globals quiet.

(** The arguments of the call of line 140 on these runners. *)
Definition sources : list string :=
  ["/home/ci/.pub-cache"; "/home/ci/.gradle/caches"; "/home/ci/.gradle/wrapper";
   "/work/android"].

End Sample.

(** Runners on which something outside the script is missing. *)
Module Faulty.

(** [Sample.quiet] with other environment variables and another answer
    to starting a sub-process. *)
Definition runner (env : string -> option string)
    (starts : list string -> option Z) (archive_size : Z) : World :=
  {| environ := env;
     expanduser := expanduser Sample.quiet;
     resolve := resolve Sample.quiet;
     relpath := relpath Sample.quiet;
     commonpath := commonpath Sample.quiet;
     makedirs := makedirs Sample.quiet;
     zip_open := zip_open Sample.quiet;
     zip_write := zip_write Sample.quiet;
     zip_close := zip_close Sample.quiet;
     getsize := fun _ => Py.Returns archive_size;
     spawn := fun command _ => starts command;
     remove := remove Sample.quiet;
     glob := glob Sample.quiet;
     part_exists := part_exists Sample.quiet;
     open_rb := open_rb Sample.quiet;
     post_message := post_message Sample.quiet;
     post_document := post_document Sample.quiet |}.

(** The bot token is set to the empty string. *)
Definition empty_token : World :=
  runner (fun name => if name =? "TELEGRAM_BOT_TOKEN" then Some ""
                      else environ Sample.quiet name)
         (fun _ => Some 0%Z) Sample.MiB.

(** The [zip] program is not installed and the archive is 150 MiB. *)
Definition no_zip : World :=
  runner (environ Sample.quiet)
         (fun command => match command with
                         | tool :: _ => if tool =? "zip" then None else Some 0%Z
                         | [] => Some 0%Z
                         end)
         (150 * Sample.MiB).

(** [GITHUB_WORKSPACE] is not set. *)
Definition no_workspace : World :=
  runner (fun name => if name =? "GITHUB_WORKSPACE" then None
                      else environ Sample.quiet name)
         (fun _ => Some 0%Z) Sample.MiB.

End Faulty.

(* ================================================================= *)
(** ** The path functions on examples *)

Example join_examples :
  Py.join "telegram_package_temp" "full_build_env_7.zip"
    = "telegram_package_temp/full_build_env_7.zip"
  /\ Py.join "/work/" "android" = "/work/android"
  /\ Py.join "" "android" = "android"
  /\ Py.join "/work" "/abs" = "/abs"
  /\ Py.join "/work" "" = "/work/".
Proof. repeat split; reflexivity. Qed.

Example basename_examples :
  Py.basename "telegram_package_temp/full_build_env_7_part.z01" = "full_build_env_7_part.z01"
  /\ Py.basename "archive.zip" = "archive.zip"
  /\ Py.basename "/tmp/dir/" = ""
  /\ Py.basename "/" = "".
Proof. repeat split; reflexivity. Qed.

Example dirname_examples :
  Py.dirname "/home/ci/.pub-cache" = "/home/ci"
  /\ Py.dirname "/home/ci/.gradle/caches/" = "/home/ci/.gradle/caches"
  /\ Py.dirname "cache" = ""
  /\ Py.dirname "/cache" = "/"
  /\ Py.dirname "//cache" = "//"
  /\ Py.dirname "a//b" = "a".
Proof. repeat split; reflexivity. Qed.

Example sorted_example :
  Py.sorted ["x_part.zip"; "x_part.z02"; "x_part.z01"]
    = ["x_part.z01"; "x_part.z02"; "x_part.zip"].
Proof. reflexivity. Qed.

Example walk_example :
  walk_node "/home/ci/.pub-cache" Sample.home_tree =
  [("/home/ci/.pub-cache", ["hosted"], ["README"]);
   ("/home/ci/.pub-cache/hosted", [], ["pkg.yaml"])].
Proof. reflexivity. Qed.

(* ================================================================= *)
(** ** Laws of the effect monad *)

Section MonadLaws.

Context {A B : Type}.

Lemma trace_bind (m : M A) (f : A -> M B) :
  trace (bind m f) =
  (trace m ++ match result m with Ok a => trace (f a) | Fail _ => [] end)%list.
Proof.
  destruct m as [t [a|s]]; simpl.
  - destruct (f a); reflexivity.
  - now rewrite app_nil_r.
Qed.

Lemma result_bind (m : M A) (f : A -> M B) :
  result (bind m f) = match result m with Ok a => result (f a) | Fail s => Fail s end.
Proof.
  destruct m as [t [a|s]]; simpl; [destruct (f a)|]; reflexivity.
Qed.

Lemma bind_Ok (m : M A) (f : A -> M B) (a : A) :
  result m = Ok a -> bind m f = ((trace m ++ trace (f a))%list, result (f a)).
Proof.
  destruct m as [t r]; simpl; intros ->. now destruct (f a).
Qed.

Lemma bind_Fail (m : M A) (f : A -> M B) (s : abort) :
  result m = Fail s -> bind m f = (trace m, Fail s).
Proof.
  destruct m as [t r]; simpl; now intros ->.
Qed.

Lemma Forall_trace_bind (P : event -> Prop) (m : M A) (f : A -> M B) :
  Forall P (trace m) ->
  (forall a, result m = Ok a -> Forall P (trace (f a))) ->
  Forall P (trace (bind m f)).
Proof.
  intros Hm Hf. rewrite trace_bind. apply Forall_app. split; [assumption|].
  destruct (result m) as [a|s]; [now apply Hf | constructor].
Qed.

End MonadLaws.

Lemma trace_try_finally {A} (m : M A) (fin : M unit) :
  trace (try_finally m fin) = (trace m ++ trace fin)%list.
Proof. destruct m, fin; reflexivity. Qed.

Lemma result_try_finally {A} (m : M A) (fin : M unit) :
  result (try_finally m fin) =
  match result fin with Ok _ => result m | Fail s => Fail s end.
Proof. destruct m, fin; reflexivity. Qed.

Lemma trace_call {A} (e : event) (o : Py.outcome A) : trace (call e o) = [e].
Proof. destruct o; reflexivity. Qed.

Lemma result_call {A} (e : event) (o : Py.outcome A) :
  result (call e o) = match o with Py.Returns a => Ok a | Py.Raises x => Fail (Raised x) end.
Proof. destruct o; reflexivity. Qed.

Lemma surjective_M {A} (m : M A) : m = (trace m, result m).
Proof. now destruct m. Qed.


Lemma raises_only_bind {A B} (m : M A) (f : A -> M B) :
  raises_only m -> (forall a, raises_only (f a)) -> raises_only (bind m f).
Proof.
  intros Hm Hf code. rewrite result_bind.
  destruct (result m) as [a|s] eqn:E; [apply Hf|].
  intros H; injection H as ->. now apply (Hm code).
Qed.

Lemma raises_only_lift {A} (o : Py.outcome A) : raises_only (lift o).
Proof. destruct o; intros code; discriminate. Qed.

Lemma raises_only_call {A} (e : event) (o : Py.outcome A) : raises_only (call e o).
Proof. destruct o; intros code; discriminate. Qed.

Lemma raises_only_ret {A} (a : A) : raises_only (ret a).
Proof. intros code; discriminate. Qed.

Lemma raises_only_emit (e : event) : raises_only (emit e).
Proof. intros code; discriminate. Qed.

Lemma raises_only_try_finally {A} (m : M A) (fin : M unit) :
  raises_only m -> raises_only fin -> raises_only (try_finally m fin).
Proof.
  intros Hm Hf code. rewrite result_try_finally.
  destruct (result fin) eqn:E; [apply Hm|].
  intros H; injection H as ->. now apply (Hf code).
Qed.

Create HintDb script.
#[local] Hint Resolve raises_only_lift raises_only_call raises_only_ret
  raises_only_emit : script.

Lemma trace_try_except {A} (m : M A) (handler : Py.exn -> option (M A)) :
  trace (try_except m handler) =
  (trace m ++ match result m with
              | Fail (Raised e) =>
                  match handler e with Some k => trace k | None => [] end
              | _ => []
              end)%list.
Proof.
  destruct m as [t [a|[e|c]]]; simpl; try now rewrite app_nil_r.
  destruct (handler e) as [[t' r']|]; simpl; [reflexivity | now rewrite app_nil_r].
Qed.

Lemma result_try_except {A} (m : M A) (handler : Py.exn -> option (M A)) :
  result (try_except m handler) =
  match result m with
  | Fail (Raised e) =>
      match handler e with Some k => result k | None => Fail (Raised e) end
  | r => r
  end.
Proof.
  destruct m as [t [a|[e|c]]]; simpl; try reflexivity.
  destruct (handler e) as [[t' r']|]; reflexivity.
Qed.

Lemma Forall_trace_try_except {A} (P : event -> Prop) (m : M A)
    (handler : Py.exn -> option (M A)) :
  Forall P (trace m) ->
  (forall e k, handler e = Some k -> Forall P (trace k)) ->
  Forall P (trace (try_except m handler)).
Proof.
  intros Hm Hh. rewrite trace_try_except. apply Forall_app; split; [assumption|].
  destruct (result m) as [a|[e|c]]; try constructor.
  destruct (handler e) as [k|] eqn:E; [now apply (Hh e) | constructor].
Qed.

Lemma Forall_trace_try_finally {A} (P : event -> Prop) (m : M A) (fin : M unit) :
  Forall P (trace m) -> Forall P (trace fin) -> Forall P (trace (try_finally m fin)).
Proof.
  intros. rewrite trace_try_finally. apply Forall_app; now split.
Qed.

Lemma Forall_trace_call {A} (P : event -> Prop) (e : event) (o : Py.outcome A) :
  P e -> Forall P (trace (call e o)).
Proof. intros. rewrite trace_call. now repeat constructor. Qed.

Lemma Forall_trace_lift {A} (P : event -> Prop) (o : Py.outcome A) :
  Forall P (trace (lift o)).
Proof. destruct o; constructor. Qed.

(* ================================================================= *)
(** ** The archiver *)

Section Archiver.

Variable w : World.

(** The walk yields something only below a directory. *)
Lemma walk_isdir (source_path : string) :
  walk w source_path <> [] -> isdir w source_path = true.
Proof.
  unfold walk, isdir. destruct (resolve w source_path) as [[|es]|]; simpl; congruence.
Qed.

Lemma walk_not_dir (source_path : string) :
  isdir w source_path = false -> walk w source_path = [].
Proof.
  destruct (walk w source_path) eqn:E; [reflexivity|].
  rewrite walk_isdir; [discriminate | congruence].
Qed.

(** What [add_file] is when the source path is a directory: the common
    ancestor is not asked for. *)
Lemma add_file_dir (source_paths : list string) (source_path root file : string) :
  isdir w source_path = true ->
  add_file w source_paths source_path root file =
  (arcname <- lift (relpath w (Py.join root file) (Py.dirname source_path)) ;;
   call (EvZipWrite (Py.join root file) arcname)
        (zip_write w (Py.join root file) arcname)).
Proof.
  intros H. unfold add_file. rewrite H. unfold bind at 1. simpl.
  now destruct (_ <- _ ;; _).
Qed.


Lemma add_files_entries (source_paths : list string) (source_path root : string)
    (dirs all_files : list string) :
  In source_path source_paths ->
  In (root, dirs, all_files) (walk w source_path) ->
  forall files, incl files all_files ->
  Forall (entry_ok w source_paths) (trace (add_files w source_paths source_path root files)).
Proof.
  intros Hsp Hroot.
  assert (Hdir : isdir w source_path = true).
  { apply walk_isdir. intros E. now rewrite E in Hroot. }
  induction files as [|file files IH]; intros Hincl; [constructor|].
  simpl. apply Forall_trace_bind.
  - rewrite add_file_dir by assumption.
    apply Forall_trace_bind; [apply Forall_trace_lift|].
    intros arcname Harc. apply Forall_trace_call. simpl.
    exists source_path, root, dirs, all_files, file.
    repeat split; try assumption.
    + apply Hincl. now left.
    + destruct (relpath w _ _); simpl in Harc; congruence.
  - intros _ _. apply IH. intros x Hx. apply Hincl. now right.
Qed.

Lemma add_walk_entries (source_paths : list string) (source_path : string) :
  In source_path source_paths ->
  forall triples, incl triples (walk w source_path) ->
  Forall (entry_ok w source_paths) (trace (add_walk w source_paths source_path triples)).
Proof.
  intros Hsp. induction triples as [|[[root dirs] files] triples IH]; intros Hincl.
  - constructor.
  - simpl. apply Forall_trace_bind.
    + apply add_files_entries with (dirs := dirs) (all_files := files);
        [assumption | apply Hincl; now left | apply incl_refl].
    + intros _ _. apply IH. intros x Hx. apply Hincl. now right.
Qed.

Lemma add_sources_entries (source_paths : list string) :
  forall todo, incl todo source_paths ->
  Forall (entry_ok w source_paths) (trace (add_sources w source_paths todo)).
Proof.
  induction todo as [|source_path todo IH]; intros Hincl; [constructor|].
  simpl. apply Forall_trace_bind.
  - destruct (exists_ w source_path); simpl.
    + apply Forall_trace_bind.
      * apply add_walk_entries; [apply Hincl; now left | apply incl_refl].
      * intros _ _. now repeat constructor.
    + now repeat constructor.
  - intros _ _. apply IH. intros x Hx. apply Hincl. now right.
Qed.

Lemma create_archive_entries (full_zip_path : string) (source_paths : list string) :
  Forall (entry_ok w source_paths) (trace (create_archive w full_zip_path source_paths)).
Proof.
  unfold create_archive.
  apply Forall_trace_bind; [now apply Forall_trace_call|]. intros _ _.
  apply Forall_trace_bind.
  - apply Forall_trace_try_finally;
      [apply add_sources_entries, incl_refl | now apply Forall_trace_call].
  - intros _ _. now repeat constructor.
Qed.

End Archiver.


Section CommonAncestor.

Variable w : World.
Variable f : list string -> Py.outcome string.

Let w' := set_commonpath w f.

Lemma add_files_commonpath (source_paths : list string) (source_path root : string)
    (files : list string) :
  isdir w source_path = true ->
  add_files w' source_paths source_path root files =
  add_files w source_paths source_path root files.
Proof.
  intros Hdir. induction files as [|file files IH]; [reflexivity|].
  simpl. rewrite IH. f_equal.
  rewrite !add_file_dir by assumption. reflexivity.
Qed.

Lemma add_walk_commonpath (source_paths : list string) (source_path : string)
    (triples : list (string * list string * list string)) :
  isdir w source_path = true ->
  add_walk w' source_paths source_path triples =
  add_walk w source_paths source_path triples.
Proof.
  intros Hdir. induction triples as [|[[root dirs] files] triples IH]; [reflexivity|].
  simpl. now rewrite IH, add_files_commonpath.
Qed.

Lemma add_sources_commonpath (source_paths todo : list string) :
  add_sources w' source_paths todo = add_sources w source_paths todo.
Proof.
  induction todo as [|source_path todo IH]; [reflexivity|].
  simpl. rewrite IH. f_equal.
  change (exists_ w' source_path) with (exists_ w source_path).
  change (walk w' source_path) with (walk w source_path).
  destruct (exists_ w source_path); [|reflexivity]. simpl.
  destruct (isdir w source_path) eqn:Hdir.
  - now rewrite add_walk_commonpath.
  - now rewrite walk_not_dir.
Qed.

Lemma create_archive_commonpath (full_zip_path : string) (source_paths : list string) :
  create_archive w' full_zip_path source_paths =
  create_archive w full_zip_path source_paths.
Proof.
  unfold create_archive. now rewrite add_sources_commonpath.
Qed.

Lemma package_commonpath (temp_dir base : string) (source_paths : list string)
    (split_bytes : Z) :
  package_and_split_files w' temp_dir base source_paths split_bytes =
  package_and_split_files w temp_dir base source_paths split_bytes.
Proof.
  unfold package_and_split_files. now rewrite create_archive_commonpath.
Qed.

End CommonAncestor.

(* ================================================================= *)
(** ** The outcomes of [package_and_split_files] *)

Arguments split_command : simpl never.
Arguments Py.join : simpl never.
Arguments Py.sorted : simpl never.

Section Packaging.

Variable w : World.
Variables temp_dir base : string.
Variable source_paths : list string.
Variable split_bytes : Z.

Let full_zip_path := Py.join temp_dir (base ++ ".zip").
Let creation := create_archive w full_zip_path source_paths.
Let command := split_command temp_dir base full_zip_path.
Let pattern := Py.join temp_dir (base ++ "_part.z*").
Let packaged := package_and_split_files w temp_dir base source_paths split_bytes.

Lemma create_archive_raises_only : raises_only creation.
Proof.
  assert (Hfile : forall sp root file,
             raises_only (add_file w source_paths sp root file)).
  { intros. unfold add_file. apply raises_only_bind.
    - destruct (isdir w sp); auto with script.
    - intros. apply raises_only_bind; auto with script. }
  assert (Hfiles : forall sp root files,
             raises_only (add_files w source_paths sp root files)).
  { induction files; simpl; [auto with script|].
    apply raises_only_bind; auto. }
  assert (Hwalk : forall sp triples,
             raises_only (add_walk w source_paths sp triples)).
  { induction triples as [|[[r d] fs] ts IH]; simpl; [auto with script|].
    apply raises_only_bind; auto. }
  assert (Hsrc : forall todo, raises_only (add_sources w source_paths todo)).
  { induction todo as [|sp todo IH]; simpl; [auto with script|].
    apply raises_only_bind; [|auto].
    destruct (exists_ w sp); simpl; [|unfold print; auto with script].
    apply raises_only_bind; [auto | unfold print; auto with script]. }
  unfold creation, create_archive.
  apply raises_only_bind; [auto with script|]. intros _.
  apply raises_only_bind; [|unfold print; auto with script].
  apply raises_only_try_finally; auto with script.
Qed.

(** The archive cannot be built: line 90. *)
Lemma package_creation_fails (e : Py.exn) :
  makedirs w temp_dir = Py.Returns tt ->
  result creation = Fail (Raised e) ->
  packaged =
  (EvMakedirs temp_dir :: trace creation ++ [EvPrint (MsgZipError e)], Ok [])%list.
Proof.
  intros Hmk Hcr. unfold packaged, package_and_split_files.
  fold full_zip_path. fold creation.
  rewrite Hmk. rewrite (surjective_M creation), Hcr. simpl.
  now rewrite app_nil_r.
Qed.

(** The archive fits: lines 115-117. *)
Lemma package_no_split (file_size : Z) :
  makedirs w temp_dir = Py.Returns tt ->
  result creation = Ok tt ->
  getsize w full_zip_path = Py.Returns file_size ->
  (file_size <= split_bytes)%Z ->
  packaged =
  (EvMakedirs temp_dir :: trace creation
     ++ [EvPrint (MsgZipSize file_size); EvPrint MsgNoSplit],
   Ok [full_zip_path])%list.
Proof.
  intros Hmk Hcr Hsz Hle. unfold packaged, package_and_split_files.
  fold full_zip_path. fold creation.
  rewrite Hmk, Hsz. rewrite (surjective_M creation), Hcr. simpl.
  destruct (Z.gtb_spec file_size split_bytes) as [Hgt|_]; [lia|].
  simpl. now rewrite !app_nil_r.
Qed.

(** The split tool exits with a non-zero status: lines 112-114. *)
Lemma package_split_fails (file_size status : Z) :
  makedirs w temp_dir = Py.Returns tt ->
  result creation = Ok tt ->
  getsize w full_zip_path = Py.Returns file_size ->
  (file_size > split_bytes)%Z ->
  spawn w command (Some temp_dir) = Some status ->
  status <> 0%Z ->
  packaged =
  (EvMakedirs temp_dir :: trace creation
     ++ [EvPrint (MsgZipSize file_size); EvPrint (MsgSplitting MAX_TELEGRAM_CHUNK_MB);
         EvRun command (Some temp_dir); EvPrint MsgSplitError],
   Ok [])%list.
Proof.
  intros Hmk Hcr Hsz Hgt Hrun Hst. unfold packaged, package_and_split_files.
  fold full_zip_path. fold creation. fold command.
  rewrite Hmk, Hsz. rewrite (surjective_M creation), Hcr. simpl.
  destruct (Z.gtb_spec file_size split_bytes) as [_|Hle]; [|lia].
  simpl. unfold subprocess_run_check, popen, os_remove. simpl. rewrite Hrun. simpl.
  destruct (Z.eqb_spec status 0) as [|_]; [contradiction|].
  simpl. now rewrite !app_nil_r.
Qed.

(** The split tool succeeds: lines 107-111. *)
Lemma package_split_ok (file_size : Z) :
  makedirs w temp_dir = Py.Returns tt ->
  result creation = Ok tt ->
  getsize w full_zip_path = Py.Returns file_size ->
  (file_size > split_bytes)%Z ->
  spawn w command (Some temp_dir) = Some 0%Z ->
  remove w full_zip_path = true ->
  packaged =
  (EvMakedirs temp_dir :: trace creation
     ++ [EvPrint (MsgZipSize file_size); EvPrint (MsgSplitting MAX_TELEGRAM_CHUNK_MB);
         EvRun command (Some temp_dir); EvRemove full_zip_path;
         EvPrint (MsgSplitParts (length (Py.sorted (glob w pattern))))],
   Ok (Py.sorted (glob w pattern)))%list.
Proof.
  intros Hmk Hcr Hsz Hgt Hrun Hrm. unfold packaged, package_and_split_files.
  fold full_zip_path. fold creation. fold command. fold pattern.
  rewrite Hmk, Hsz. rewrite (surjective_M creation), Hcr. simpl.
  destruct (Z.gtb_spec file_size split_bytes) as [_|Hle]; [|lia].
  simpl. unfold subprocess_run_check, popen, os_remove. simpl. rewrite Hrun. simpl.
  rewrite Hrm. simpl. now rewrite !app_nil_r.
Qed.

End Packaging.

Lemma commands_app (t1 t2 : list event) :
  commands (t1 ++ t2) = (commands t1 ++ commands t2)%list.
Proof. apply flat_map_app. Qed.

Lemma archive_entries_app (t1 t2 : list event) :
  archive_entries (t1 ++ t2) = (archive_entries t1 ++ archive_entries t2)%list.
Proof. apply flat_map_app. Qed.

(** Building the archive starts no sub-process. *)
Lemma create_archive_commands (w : World) (full_zip_path : string)
    (source_paths : list string) :
  commands (trace (create_archive w full_zip_path source_paths)) = [].
Proof.
  pose proof (create_archive_entries w full_zip_path source_paths) as H.
  induction H as [|e t He _ IH]; [reflexivity|].
  destruct e; simpl in *; try assumption; contradiction.
Qed.

Lemma In_archive_entries (t : list event) (file_path arcname : string) :
  In (file_path, arcname) (archive_entries t) <-> In (EvZipWrite file_path arcname) t.
Proof.
  unfold archive_entries. rewrite in_flat_map. split.
  - intros [e [He Hin]]. destruct e; simpl in Hin; try contradiction.
    destruct Hin as [[= -> ->]|[]]. assumption.
  - intros H. exists (EvZipWrite file_path arcname). split; [assumption | now left].
Qed.

(* ================================================================= *)
(** ** Claims about [package_and_split_files] *)

(** C2.  When the archive has been built and its size is at or below
    [split_bytes], [package_and_split_files] returns the one-element list
    holding the archive path [os.path.join(temp_dir, base + ".zip")]
    itself, and no sub-process (so no split tool) is started. *)
Theorem small_archive_is_the_single_part
    (w : World) (temp_dir base : string) (source_paths : list string)
    (split_bytes file_size : Z) :
  let full_zip_path := Py.join temp_dir (base ++ ".zip") in
  let packaged := package_and_split_files w temp_dir base source_paths split_bytes in
  makedirs w temp_dir = Py.Returns tt ->
  result (create_archive w full_zip_path source_paths) = Ok tt ->
  getsize w full_zip_path = Py.Returns file_size ->
  (file_size <= split_bytes)%Z ->
  result packaged = Ok [full_zip_path] /\ commands (trace packaged) = [].
Proof.
  intros full_zip_path packaged Hmk Hcr Hsz Hle. unfold packaged.
  rewrite (package_no_split w temp_dir base source_paths split_bytes file_size)
    by assumption.
  split; [reflexivity|]. simpl.
  now rewrite commands_app, create_archive_commands.
Qed.

Lemma small_archive_is_the_single_part_witness :
  result (package_and_split_files Sample.quiet temp_packaging_dir "full_build_env_7"
            Sample.sources MAX_TELEGRAM_CHUNK_BYTES)
    = Ok ["telegram_package_temp/full_build_env_7.zip"]
  /\ commands (trace (package_and_split_files Sample.quiet temp_packaging_dir
                        "full_build_env_7" Sample.sources MAX_TELEGRAM_CHUNK_BYTES)) = [].
Proof.
  apply (small_archive_is_the_single_part Sample.quiet temp_packaging_dir
           "full_build_env_7" Sample.sources MAX_TELEGRAM_CHUNK_BYTES Sample.MiB).
  - reflexivity.
  - reflexivity.
  - reflexivity.
  - vm_compute. discriminate.
Defined.

(** C3, as stated, fails: the archive is built, it is larger than the
    threshold, [zip -s] exits with status 12, and the returned list is
    empty. *)
Lemma archive_created_but_no_parts :
  result (create_archive Sample.split_fails
            (Py.join temp_packaging_dir ("full_build_env_7" ++ ".zip")) Sample.sources)
    = Ok tt
  /\ result (package_and_split_files Sample.split_fails temp_packaging_dir
               "full_build_env_7" Sample.sources MAX_TELEGRAM_CHUNK_BYTES) = Ok [].
Proof. split; reflexivity. Qed.

Lemma sorted_nil_iff (l : list string) : Py.sorted l = [] <-> l = [].
Proof.
  split; [|now intros ->].
  destruct l as [|x l]; [reflexivity|]. unfold Py.sorted. simpl.
  destruct (fold_right Py.insert [] l) as [|y l']; simpl; [discriminate|].
  destruct (String.leb x y); discriminate.
Qed.

(** C3, amended.  Whenever [package_and_split_files] returns, the list is
    non-empty exactly when the archive was built and either it is within
    [split_bytes], or the split tool exited with status 0 and the glob
    found at least one segment.  In particular the list is empty whenever
    archive creation fails, and also when the split tool fails. *)
Theorem parts_nonempty_iff
    (w : World) (temp_dir base : string) (source_paths : list string)
    (split_bytes : Z) (parts : list string) :
  let full_zip_path := Py.join temp_dir (base ++ ".zip") in
  result (package_and_split_files w temp_dir base source_paths split_bytes) = Ok parts ->
  (parts <> [] <->
   result (create_archive w full_zip_path source_paths) = Ok tt /\
   exists file_size,
     getsize w full_zip_path = Py.Returns file_size /\
     ((file_size <= split_bytes)%Z \/
      (spawn w (split_command temp_dir base full_zip_path) (Some temp_dir) = Some 0%Z /\
       glob w (Py.join temp_dir (base ++ "_part.z*")) <> []))).
Proof.
  intros full_zip_path Hres.
  destruct (makedirs w temp_dir) as [[]|e] eqn:Hmk.
  2:{ unfold package_and_split_files in Hres. rewrite Hmk in Hres. discriminate. }
  destruct (result (create_archive w full_zip_path source_paths)) as [[]|[e|c]] eqn:Hcr.
  3:{ now destruct (create_archive_raises_only w temp_dir base source_paths c). }
  2:{ rewrite (package_creation_fails w temp_dir base source_paths split_bytes e)
        in Hres by assumption.
      injection Hres as <-. split; [congruence | intros [H _]; discriminate]. }
  destruct (getsize w full_zip_path) as [file_size|e] eqn:Hsz.
  2:{ unfold package_and_split_files in Hres. fold full_zip_path in Hres.
      rewrite Hmk, Hsz in Hres.
      rewrite (surjective_M (create_archive _ _ _)), Hcr in Hres. discriminate. }
  destruct (Z_le_gt_dec file_size split_bytes) as [Hle|Hgt].
  { rewrite (package_no_split w temp_dir base source_paths split_bytes file_size)
      in Hres by assumption.
    injection Hres as <-. split; [|discriminate].
    intros _. split; [reflexivity|]. exists file_size. auto. }
  destruct (spawn w (split_command temp_dir base full_zip_path) (Some temp_dir))
    as [status|] eqn:Hrun.
  2:{ unfold package_and_split_files in Hres. fold full_zip_path in Hres.
      rewrite Hmk, Hsz in Hres.
      rewrite (surjective_M (create_archive _ _ _)), Hcr in Hres. simpl in Hres.
      destruct (Z.gtb_spec file_size split_bytes); [|lia].
      unfold subprocess_run_check, popen in Hres. simpl in Hres.
      rewrite Hrun in Hres. discriminate. }
  destruct (Z.eq_dec status 0) as [->|Hst].
  2:{ rewrite (package_split_fails w temp_dir base source_paths split_bytes file_size status)
        in Hres by assumption.
      injection Hres as <-. split; [congruence|].
      intros [_ [sz [Hsz' [Hle'|[H0 _]]]]]; [injection Hsz' as <-; lia | congruence]. }
  destruct (remove w full_zip_path) eqn:Hrm.
  2:{ unfold package_and_split_files in Hres. fold full_zip_path in Hres.
      rewrite Hmk, Hsz in Hres.
      rewrite (surjective_M (create_archive _ _ _)), Hcr in Hres. simpl in Hres.
      destruct (Z.gtb_spec file_size split_bytes); [|lia].
      unfold subprocess_run_check, popen, os_remove in Hres. simpl in Hres.
      rewrite Hrun in Hres. simpl in Hres. rewrite Hrm in Hres. discriminate. }
  rewrite (package_split_ok w temp_dir base source_paths split_bytes file_size)
    in Hres by assumption.
  injection Hres as <-. rewrite sorted_nil_iff. split.
  - intros Hne. split; [reflexivity|]. exists file_size. auto.
  - intros [_ [sz [Hsz' [Hle'|[_ Hne]]]]]; [|assumption].
    injection Hsz' as <-. lia.
Qed.

Lemma parts_nonempty_iff_witness :
  ["telegram_package_temp/full_build_env_7.zip"] <> [] <->
  result (create_archive Sample.quiet
            (Py.join temp_packaging_dir ("full_build_env_7" ++ ".zip")) Sample.sources)
    = Ok tt /\
  exists file_size,
    getsize Sample.quiet (Py.join temp_packaging_dir ("full_build_env_7" ++ ".zip"))
      = Py.Returns file_size /\
    ((file_size <= MAX_TELEGRAM_CHUNK_BYTES)%Z \/
     (spawn Sample.quiet
        (split_command temp_packaging_dir "full_build_env_7"
           (Py.join temp_packaging_dir ("full_build_env_7" ++ ".zip")))
        (Some temp_packaging_dir) = Some 0%Z /\
      glob Sample.quiet (Py.join temp_packaging_dir ("full_build_env_7" ++ "_part.z*"))
        <> [])).
Proof.
  apply (parts_nonempty_iff Sample.quiet temp_packaging_dir "full_build_env_7"
           Sample.sources MAX_TELEGRAM_CHUNK_BYTES
           ["telegram_package_temp/full_build_env_7.zip"]).
  reflexivity.
Defined.


Lemma package_events (w : World) (temp_dir base : string)
    (source_paths : list string) (split_bytes : Z) :
  Forall (package_event w temp_dir base source_paths)
    (trace (package_and_split_files w temp_dir base source_paths split_bytes)).
Proof.
  unfold package_and_split_files.
  apply Forall_trace_bind; [now apply Forall_trace_call|]. intros _ _.
  apply Forall_trace_bind.
  - apply Forall_trace_try_except.
    + apply Forall_trace_bind; [|intros; constructor].
      eapply Forall_impl; [|apply create_archive_entries].
      intros [] H; simpl in *; solve [assumption | contradiction | exact I].
    + intros e k [= <-]. now repeat constructor.
  - intros [|] _; cbn [negb]; [|constructor].
    apply Forall_trace_bind; [apply Forall_trace_lift|]. intros file_size _.
    apply Forall_trace_bind; [now repeat constructor|]. intros _ _.
    destruct (file_size >? split_bytes)%Z.
    + apply Forall_trace_bind; [now repeat constructor|]. intros _ _.
      apply Forall_trace_try_except.
      * apply Forall_trace_bind.
        { unfold subprocess_run_check, popen.
          apply Forall_trace_bind.
          - apply Forall_trace_bind; [now repeat constructor|]. intros _ _.
            destruct (spawn w _ _); constructor.
          - intros status _. destruct (status =? 0)%Z; constructor. }
        intros _ _. apply Forall_trace_bind.
        { unfold os_remove. apply Forall_trace_bind; [now repeat constructor|].
          intros _ _. destruct (remove w _); constructor. }
        intros _ _. apply Forall_trace_bind; [now repeat constructor | intros; constructor].
      * intros e k. destruct e; intros [= <-]. now repeat constructor.
    + apply Forall_trace_bind; [now repeat constructor | intros; constructor].
Qed.

(** Whatever [split_bytes] is, a sub-process started by
    [package_and_split_files] is [zip -s 49m]. *)
Lemma split_size_is_the_constant (w : World) (temp_dir base : string)
    (source_paths : list string) (split_bytes : Z) (command : list string) :
  In command (commands (trace (package_and_split_files w temp_dir base
                                 source_paths split_bytes))) ->
  firstn 3 command = ["zip"; "-s"; "49m"].
Proof.
  unfold commands. rewrite in_flat_map. intros [e [He Hin]].
  pose proof (package_events w temp_dir base source_paths split_bytes) as H.
  rewrite Forall_forall in H. specialize (H e He).
  destruct e; simpl in Hin; try contradiction.
  destruct Hin as [<-|[]]. destruct H as [-> _]. reflexivity.
Qed.

(** C4, as stated, fails.  On a call with a threshold of one MiB, an
    absolute directory and the source paths of a runner whose
    [~/.pub-cache] holds two files, both files are written to the
    archive; the archive is two MiB, above the threshold; and the split
    tool is started with segments of [49m], that is 51380224 bytes, and
    not of [split_bytes = 1048576] bytes.  The one segment it leaves is
    the whole archive again. *)
Lemma segment_size_is_not_the_threshold :
  let w := Sample.runner true (2 * Sample.MiB) 0 ["/tmp/pkg/env_part.zip"]
             Sample.always Sample.always in
  let packaged := package_and_split_files w "/tmp/pkg" "env" Sample.sources Sample.MiB in
  written (trace packaged)
    = ["/home/ci/.pub-cache/README"; "/home/ci/.pub-cache/hosted/pkg.yaml"]
  /\ getsize w "/tmp/pkg/env.zip" = Py.Returns (2 * Sample.MiB)%Z
  /\ (2 * Sample.MiB > Sample.MiB)%Z
  /\ commands (trace packaged)
     = [["zip"; "-s"; "49m"; "/tmp/pkg/env_part.zip"; "/tmp/pkg/env.zip"]]
  /\ result packaged = Ok ["/tmp/pkg/env_part.zip"]
  /\ (49 * 1024 * 1024 <> Sample.MiB)%Z.
Proof. repeat split; try reflexivity; discriminate. Qed.

(** C4, amended.  When the archive has been built and is larger than
    [split_bytes], the split tool is started exactly once, in
    [temp_dir], as [zip -s 49m <temp_dir>/<base>_part.zip <archive>]:
    the segment size is [MAX_TELEGRAM_CHUNK_MB] in the unit syntax of
    the tool, whatever [split_bytes] is.  That size, 49 * 1024 * 1024
    bytes, is the threshold exactly when [split_bytes] is
    [MAX_TELEGRAM_CHUNK_BYTES], the value passed by the call of
    line 140. *)
Theorem segment_size_is_the_chunk_constant
    (w : World) (temp_dir base : string) (source_paths : list string)
    (split_bytes file_size : Z) :
  let full_zip_path := Py.join temp_dir (base ++ ".zip") in
  let packaged := package_and_split_files w temp_dir base source_paths split_bytes in
  let command :=
    ["zip"; "-s"; "49m"; Py.join temp_dir (base ++ "_part.zip"); full_zip_path] in
  makedirs w temp_dir = Py.Returns tt ->
  result (create_archive w full_zip_path source_paths) = Ok tt ->
  getsize w full_zip_path = Py.Returns file_size ->
  (file_size > split_bytes)%Z ->
  commands (trace packaged) = [command]
  /\ In (EvRun command (Some temp_dir)) (trace packaged)
  /\ Py.str_int MAX_TELEGRAM_CHUNK_MB ++ "m" = "49m"
  /\ ((49 * 1024 * 1024)%Z = split_bytes <-> split_bytes = MAX_TELEGRAM_CHUNK_BYTES).
Proof.
  intros full_zip_path packaged command Hmk Hcr Hsz Hgt.
  assert (Hc : split_command temp_dir base full_zip_path = command) by reflexivity.
  assert (Ht : exists after,
             trace packaged =
             ((EvMakedirs temp_dir
                 :: trace (create_archive w full_zip_path source_paths))
                ++ [EvPrint (MsgZipSize file_size);
                    EvPrint (MsgSplitting MAX_TELEGRAM_CHUNK_MB);
                    EvRun command (Some temp_dir)] ++ after)%list
             /\ commands after = []).
  { unfold packaged, package_and_split_files. fold full_zip_path.
    rewrite Hmk, Hsz.
    rewrite (surjective_M (create_archive w full_zip_path source_paths)), Hcr.
    simpl. destruct (Z.gtb_spec file_size split_bytes) as [_|Hle]; [|lia].
    simpl. unfold subprocess_run_check, popen, os_remove. simpl. rewrite Hc.
    destruct (spawn w command (Some temp_dir)) as [status|]; simpl.
    - destruct (status =? 0)%Z; simpl.
      + destruct (remove w full_zip_path); simpl; eexists;
          (split; [rewrite <- app_assoc; reflexivity | reflexivity]).
      + eexists. split; [rewrite <- app_assoc; reflexivity | reflexivity].
    - eexists. split; [rewrite <- app_assoc; reflexivity | reflexivity]. }
  destruct Ht as [after [Ht Hafter]].
  split; [|split; [|split; [reflexivity|]]].
  - rewrite Ht, !commands_app, Hafter. simpl.
    now rewrite create_archive_commands.
  - rewrite Ht. apply in_or_app. right. apply in_or_app. left.
    simpl. tauto.
  - unfold MAX_TELEGRAM_CHUNK_BYTES, MAX_TELEGRAM_CHUNK_MB. split; intros H; now rewrite H.
Qed.

Lemma segment_size_is_the_chunk_constant_witness :
  commands (trace (package_and_split_files Sample.split_fails temp_packaging_dir
                     "full_build_env_7" Sample.sources MAX_TELEGRAM_CHUNK_BYTES))
    = [["zip"; "-s"; "49m"; "telegram_package_temp/full_build_env_7_part.zip";
        "telegram_package_temp/full_build_env_7.zip"]]
  /\ (49 * 1024 * 1024)%Z = MAX_TELEGRAM_CHUNK_BYTES.
Proof.
  destruct (segment_size_is_the_chunk_constant Sample.split_fails temp_packaging_dir
              "full_build_env_7" Sample.sources MAX_TELEGRAM_CHUNK_BYTES
              (150 * Sample.MiB))
    as [Hcommands [_ [_ Hsize]]].
  - reflexivity.
  - reflexivity.
  - reflexivity.
  - reflexivity.
  - split; [exact Hcommands | now apply Hsize].
Defined.

(** C10.  The common-ancestor branch is never taken: the outcome and the
    trace of [package_and_split_files] do not depend on what
    [os.path.commonpath] would answer, and every entry written to the
    archive is a file met while walking a source path that is a
    directory, named by [os.path.relpath] from [os.path.dirname] of that
    source path. *)
Theorem common_ancestor_branch_unreachable
    (w : World) (temp_dir base : string) (source_paths : list string) (split_bytes : Z) :
  (forall f,
     package_and_split_files (set_commonpath w f) temp_dir base source_paths split_bytes
     = package_and_split_files w temp_dir base source_paths split_bytes)
  /\
  (forall file_path arcname,
     In (file_path, arcname)
        (archive_entries
           (trace (package_and_split_files w temp_dir base source_paths split_bytes))) ->
     exists source_path root dirs files file,
       In source_path source_paths /\
       isdir w source_path = true /\
       In (root, dirs, files) (walk w source_path) /\
       In file files /\
       file_path = Py.join root file /\
       relpath w file_path (Py.dirname source_path) = Py.Returns arcname).
Proof.
  split.
  - intros f. apply package_commonpath.
  - intros file_path arcname Hin. apply In_archive_entries in Hin.
    pose proof (package_events w temp_dir base source_paths split_bytes) as H.
    rewrite Forall_forall in H. exact (H _ Hin).
Qed.

Lemma common_ancestor_branch_unreachable_witness :
  exists source_path root dirs files file,
    In source_path Sample.sources /\
    isdir Sample.quiet source_path = true /\
    In (root, dirs, files) (walk Sample.quiet source_path) /\
    In file files /\
    "/home/ci/.pub-cache/hosted/pkg.yaml" = Py.join root file /\
    relpath Sample.quiet "/home/ci/.pub-cache/hosted/pkg.yaml" (Py.dirname source_path)
      = Py.Returns "rel:/home/ci:/home/ci/.pub-cache/hosted/pkg.yaml".
Proof.
  apply (proj2 (common_ancestor_branch_unreachable Sample.quiet temp_packaging_dir
                  "full_build_env_7" Sample.sources MAX_TELEGRAM_CHUNK_BYTES)).
  vm_compute. right. left. reflexivity.
Defined.

(* ================================================================= *)
(** ** Missing source paths and failures of the zip library *)

Section Asymmetry.

Variable w : World.
Variable source_paths : list string.

(** A missing source path costs one warning; the loop goes on. *)
Lemma add_sources_missing (source_path : string) (todo : list string) :
  exists_ w source_path = false ->
  add_sources w source_paths (source_path :: todo) =
  (print (MsgSourceMissing source_path) ;; add_sources w source_paths todo).
Proof. intros H. simpl. now rewrite H. Qed.

Lemma add_sources_existing_only (todo : list string) :
  result (add_sources w source_paths todo)
    = result (add_sources w source_paths (filter (exists_ w) todo))
  /\ archive_entries (trace (add_sources w source_paths todo))
    = archive_entries (trace (add_sources w source_paths (filter (exists_ w) todo))).
Proof.
  induction todo as [|source_path todo [IHr IHe]]; [split; reflexivity|].
  destruct (exists_ w source_path) eqn:Hex.
  - cbn [filter]. rewrite Hex. cbn [add_sources]. rewrite Hex. cbn [negb].
    rewrite !result_bind, !trace_bind, !archive_entries_app, IHr.
    split; [reflexivity|].
    destruct (result (_ ;; print _)); [now rewrite IHe | reflexivity].
  - cbn [filter]. rewrite Hex, add_sources_missing by assumption.
    rewrite result_bind, trace_bind. simpl. auto.
Qed.

Lemma add_sources_warns (todo : list string) :
  result (add_sources w source_paths todo) = Ok tt ->
  forall source_path,
    In source_path todo -> exists_ w source_path = false ->
    In (EvPrint (MsgSourceMissing source_path)) (trace (add_sources w source_paths todo)).
Proof.
  induction todo as [|p todo IH]; intros Hres source_path Hin Hex; [contradiction|].
  cbn [add_sources] in *. rewrite result_bind in Hres. rewrite trace_bind.
  apply in_or_app.
  destruct (result (if negb (exists_ w p) then _ else _)) as [[]|s] eqn:Hstep;
    [|discriminate].
  destruct Hin as [->|Hin].
  - left. rewrite Hex. now left.
  - right. now apply IH.
Qed.

End Asymmetry.

(** C8.  The two kinds of failure are handled differently.  A source
    path that does not exist is skipped with a warning and the loop
    continues: the outcome and the archive entries are those of the loop
    over the existing paths alone, and when the loop completes the
    warning of every missing path has been printed.  An exception raised
    anywhere in the archive construction (opening the archive, naming or
    writing an entry, closing it) makes [package_and_split_files] return
    the empty list. *)
Theorem missing_paths_tolerated_exceptions_fatal
    (w : World) (temp_dir base : string) (source_paths : list string) (split_bytes : Z) :
  (forall source_path todo,
     exists_ w source_path = false ->
     add_sources w source_paths (source_path :: todo) =
     (print (MsgSourceMissing source_path) ;; add_sources w source_paths todo))
  /\
  (forall todo,
     result (add_sources w source_paths todo)
       = result (add_sources w source_paths (filter (exists_ w) todo))
     /\ archive_entries (trace (add_sources w source_paths todo))
       = archive_entries (trace (add_sources w source_paths (filter (exists_ w) todo)))
     /\ (result (add_sources w source_paths todo) = Ok tt ->
         forall source_path,
           In source_path todo -> exists_ w source_path = false ->
           In (EvPrint (MsgSourceMissing source_path))
              (trace (add_sources w source_paths todo))))
  /\
  (makedirs w temp_dir = Py.Returns tt ->
   result (create_archive w (Py.join temp_dir (base ++ ".zip")) source_paths) <> Ok tt ->
   result (package_and_split_files w temp_dir base source_paths split_bytes) = Ok []).
Proof.
  split; [|split].
  - intros. now apply add_sources_missing.
  - intros todo. destruct (add_sources_existing_only w source_paths todo) as [Hr He].
    repeat split; try assumption. apply add_sources_warns.
  - intros Hmk Hcr.
    destruct (result (create_archive w (Py.join temp_dir (base ++ ".zip")) source_paths))
      as [[]|[e|c]] eqn:E.
    + congruence.
    + now rewrite (package_creation_fails w temp_dir base source_paths split_bytes e).
    + now destruct (create_archive_raises_only w temp_dir base source_paths c).
Qed.

Lemma missing_paths_tolerated_exceptions_fatal_witness :
  (In (EvPrint (MsgSourceMissing "/work/android"))
      (trace (add_sources Sample.quiet Sample.sources Sample.sources)))
  /\ result (package_and_split_files Sample.zip_broken temp_packaging_dir
               "full_build_env_7" Sample.sources MAX_TELEGRAM_CHUNK_BYTES) = Ok [].
Proof.
  split.
  - apply (proj2 (proj2 (proj1 (proj2
             (missing_paths_tolerated_exceptions_fatal Sample.quiet temp_packaging_dir
                "full_build_env_7" Sample.sources MAX_TELEGRAM_CHUNK_BYTES))
             Sample.sources))).
    + reflexivity.
    + simpl. auto.
    + reflexivity.
  - apply (proj2 (proj2
             (missing_paths_tolerated_exceptions_fatal Sample.zip_broken
                temp_packaging_dir "full_build_env_7" Sample.sources
                MAX_TELEGRAM_CHUNK_BYTES))).
    + reflexivity.
    + vm_compute. discriminate.
Defined.

(* ================================================================= *)
(** ** The notifier and the upload loop *)


Lemma messages_app (t1 t2 : list event) :
  messages (t1 ++ t2) = (messages t1 ++ messages t2)%list.
Proof. apply flat_map_app. Qed.

Lemma documents_app (t1 t2 : list event) :
  documents (t1 ++ t2) = (documents t1 ++ documents t2)%list.
Proof. apply flat_map_app. Qed.

Lemma cleanup_reached_app (t1 t2 : list event) :
  cleanup_reached (t1 ++ t2) = cleanup_reached t1 || cleanup_reached t2.
Proof. apply existsb_app. Qed.

Section Notifier.

Variable w : World.
Variable g : Globals.

Lemma send_message_delivered (text : string) :
  delivered w g text = true ->
  send_telegram_message w g text =
  ([EvPostMessage (TELEGRAM_API_BASE_URL ++ Py.str (telegram_token g) ++ "/sendMessage")
      (chat_id g) text;
    EvPrint (MsgMessageSent text)], Ok tt).
Proof. unfold delivered, send_telegram_message. simpl. now intros ->. Qed.

Lemma send_message_failed (text : string) :
  delivered w g text = false ->
  send_telegram_message w g text =
  ([EvPostMessage (TELEGRAM_API_BASE_URL ++ Py.str (telegram_token g) ++ "/sendMessage")
      (chat_id g) text;
    EvPrint MsgMessageError], Fail (SystemExit 1)).
Proof. unfold delivered, send_telegram_message. simpl. now intros ->. Qed.

Lemma messages_send_message (text : string) :
  messages (trace (send_telegram_message w g text)) = [text].
Proof.
  destruct (delivered w g text) eqn:E;
    [rewrite send_message_delivered | rewrite send_message_failed]; auto.
Qed.

(** One call of [send_telegram_document]: at most one request, for the
    file and the caption given; without a request the call does not
    return [True]; no status message and no sub-process. *)
Lemma send_document_cases (file_path caption : string) :
  let m := send_telegram_document w g file_path caption in
  (documents (trace m) = [(file_path, caption)]
   \/ (documents (trace m) = [] /\ result m <> Ok true))
  /\ messages (trace m) = []
  /\ cleanup_reached (trace m) = false
  /\ raises_only m.
Proof.
  unfold send_telegram_document, raises_only.
  destruct (part_exists w file_path); simpl.
  2:{ repeat split; try reflexivity; [right; split; [reflexivity|]|]; intros; discriminate. }
  destruct (open_rb w file_path) as [[]|e]; simpl.
  2:{ repeat split; try reflexivity; [right; split; [reflexivity|]|]; intros; discriminate. }
  destruct (post_document w _ (chat_id g) caption file_path) as [[|]| |]; simpl;
    repeat split; try reflexivity; try (now left); intros; discriminate.
Qed.

Lemma send_document_true (file_path caption : string) :
  result (send_telegram_document w g file_path caption) = Ok true ->
  documents (trace (send_telegram_document w g file_path caption))
    = [(file_path, caption)].
Proof.
  intros H. destruct (send_document_cases file_path caption) as [[Hd|[_ Hn]] _];
    [assumption | contradiction].
Qed.

(** The documents of the loop are its first files, each with the caption
    of its position. *)
Lemma upload_loop_documents (n : nat) (files : list string) :
  forall i k file_path caption,
    nth_error (documents (trace (upload_loop w g n i files))) k = Some (file_path, caption) ->
    nth_error files k = Some file_path /\ caption = caption_text g (i + k) n file_path.
Proof.
  induction files as [|p files IH]; intros i k file_path caption Hk.
  - destruct k; discriminate.
  - cbn [upload_loop] in Hk. rewrite trace_bind, documents_app in Hk.
    destruct (send_document_cases p (caption_text g i n p)) as [[Hd|[Hd Hn]] _].
    + rewrite Hd in Hk. destruct k as [|k]; simpl in Hk.
      * injection Hk as <- <-. rewrite Nat.add_0_r. auto.
      * destruct (result (send_telegram_document w g p _)) as [[|]|s];
          try (destruct k; discriminate).
        apply IH in Hk. rewrite Nat.add_succ_r. exact Hk.
    + rewrite Hd in Hk. simpl in Hk.
      destruct (result (send_telegram_document w g p _)) as [[|]|s];
        try (destruct k; discriminate).
      contradiction.
Qed.

Lemma upload_loop_all_sent (n : nat) (files : list string) :
  forall i, result (upload_loop w g n i files) = Ok true ->
            length (documents (trace (upload_loop w g n i files))) = length files.
Proof.
  induction files as [|p files IH]; intros i Hres; [reflexivity|].
  cbn [upload_loop] in *. rewrite result_bind in Hres.
  rewrite trace_bind, documents_app, length_app.
  destruct (result (send_telegram_document w g p _)) as [[|]|s] eqn:Hsend;
    try discriminate.
  rewrite send_document_true by assumption. simpl. f_equal. now apply IH.
Qed.

Lemma upload_loop_quiet (n : nat) (files : list string) :
  forall i, messages (trace (upload_loop w g n i files)) = []
            /\ cleanup_reached (trace (upload_loop w g n i files)) = false
            /\ raises_only (upload_loop w g n i files).
Proof.
  induction files as [|p files IH]; intros i.
  - repeat split. intros c; discriminate.
  - cbn [upload_loop].
    destruct (send_document_cases p (caption_text g i n p)) as [_ [Hm [Hc Hr]]].
    rewrite trace_bind, messages_app, cleanup_reached_app, Hm, Hc.
    repeat split.
    + destruct (result _) as [[|]|]; try reflexivity. apply IH.
    + destruct (result _) as [[|]|]; try reflexivity. apply IH.
    + apply raises_only_bind; [assumption|].
      intros [|]; [apply IH | apply raises_only_ret].
Qed.

(** While the uploads succeed the loop goes on with the next index. *)
Lemma upload_loop_app (n : nat) (before rest : list string) :
  forall i,
    result (upload_loop w g n i before) = Ok true ->
    upload_loop w g n i (before ++ rest)%list =
    ((trace (upload_loop w g n i before)
        ++ trace (upload_loop w g n (i + length before) rest))%list,
     result (upload_loop w g n (i + length before) rest)).
Proof.
  induction before as [|p before IH]; intros i Hres.
  - simpl. rewrite Nat.add_0_r. apply surjective_M.
  - cbn [upload_loop app] in *. rewrite result_bind in Hres.
    destruct (result (send_telegram_document w g p _)) as [[|]|s] eqn:Hsend;
      try discriminate.
    rewrite (bind_Ok _ _ true Hsend). rewrite IH by assumption.
    rewrite (bind_Ok _ _ true Hsend). cbn [trace result fst snd length].
    now rewrite Nat.add_succ_r, app_assoc.
Qed.

(** The loop ends with the first upload that fails. *)
Lemma upload_loop_stops (n : nat) (before after : list string) (failed : string) :
  forall i,
    result (upload_loop w g n i before) = Ok true ->
    result (send_telegram_document w g failed
              (caption_text g (i + length before) n failed)) = Ok false ->
    upload_loop w g n i (before ++ failed :: after)%list =
    ((trace (upload_loop w g n i before)
        ++ trace (send_telegram_document w g failed
                    (caption_text g (i + length before) n failed)))%list,
     Ok false).
Proof.
  intros i Hbefore Hfailed. rewrite upload_loop_app by assumption.
  cbn [upload_loop]. rewrite (bind_Ok _ _ false Hfailed). simpl.
  now rewrite app_nil_r.
Qed.

End Notifier.

(** C6.  The [k]-th document sent by the loop (counting from 0) is the
    [k]-th file of the part list, and its caption is exactly
    [Build Env (<run_number>) Part <k+1>/<n>: <basename>], [n] being the
    length of the part list; an unset run number is rendered [None], as
    the f-string does.  When every upload succeeds, all [n] documents
    are sent. *)
Theorem caption_of_each_part (w : World) (g : Globals) (parts : list string) :
  (forall k file_path caption,
     nth_error (documents (trace (upload_parts w g parts))) k = Some (file_path, caption) ->
     nth_error parts k = Some file_path /\
     caption = "Build Env (" ++ Py.str (run_number g) ++ ") Part "
                 ++ Py.str_int (Z.of_nat k + 1) ++ "/"
                 ++ Py.str_int (Z.of_nat (length parts))
                 ++ ": " ++ Py.basename file_path)
  /\
  (result (upload_parts w g parts) = Ok true ->
   length (documents (trace (upload_parts w g parts))) = length parts).
Proof.
  split.
  - intros k file_path caption Hk.
    apply upload_loop_documents in Hk. destruct Hk as [Hnth ->].
    split; [assumption|]. unfold caption_text. cbn [Nat.add].
    now rewrite Nat2Z.inj_add.
  - apply upload_loop_all_sent.
Qed.

Lemma caption_of_each_part_witness :
  nth_error ["tmp/a_part.z01"; "tmp/a_part.zip"] 1 = Some "tmp/a_part.zip"
  /\ "Build Env (7) Part 2/2: a_part.zip"
     = "Build Env (" ++ Py.str (run_number Sample.globals) ++ ") Part "
         ++ Py.str_int (Z.of_nat 1 + 1) ++ "/"
         ++ Py.str_int (Z.of_nat (length ["tmp/a_part.z01"; "tmp/a_part.zip"]))
         ++ ": " ++ Py.basename "tmp/a_part.zip".
Proof.
  apply (proj1 (caption_of_each_part Sample.quiet Sample.globals
                  ["tmp/a_part.z01"; "tmp/a_part.zip"])).
  reflexivity.
Defined.

Section Orchestrator.

Variable w : World.
Variable g : Globals.

Lemma cleanup_trace :
  trace (cleanup w) =
  ([EvPrint MsgCleaningUp; EvRun ["rm"; "-rf"; temp_packaging_dir] None]
     ++ match spawn w ["rm"; "-rf"; temp_packaging_dir] None with
        | Some _ => [EvPrint MsgCleanupComplete]
        | None => []
        end)%list.
Proof.
  unfold cleanup, subprocess_run, popen. simpl.
  destruct (spawn w _ None); reflexivity.
Qed.

Lemma cleanup_result :
  result (cleanup w) = match spawn w ["rm"; "-rf"; temp_packaging_dir] None with
                       | Some _ => Ok tt
                       | None => Fail (Raised Py.OSError)
                       end.
Proof.
  unfold cleanup, subprocess_run, popen. simpl.
  destruct (spawn w _ None); reflexivity.
Qed.

(** Lines 151-168 when the first message is delivered and the loop ends
    with [all_uploads_successful = b]. *)
Lemma upload_and_cleanup_trace (parts : list string) (b : bool) :
  delivered w g MSG_UPLOADING = true ->
  result (upload_parts w g parts) = Ok b ->
  let summary := send_telegram_message w g (if b then MSG_SUCCESS else MSG_WARNING) in
  trace (upload_and_cleanup w g parts) =
  (trace (send_telegram_message w g MSG_UPLOADING)
     ++ trace (upload_parts w g parts)
     ++ trace summary
     ++ match result summary with Ok _ => trace (cleanup w) | Fail _ => [] end)%list
  /\ result (upload_and_cleanup w g parts) =
     match result summary with Ok _ => result (cleanup w) | Fail s => Fail s end.
Proof.
  intros Hup Hres summary. unfold upload_and_cleanup.
  rewrite trace_bind, result_bind, send_message_delivered by assumption.
  cbn [result snd trace fst].
  rewrite trace_bind, result_bind, Hres.
  rewrite trace_bind, result_bind.
  assert (E : (if b then send_telegram_message w g MSG_SUCCESS
               else send_telegram_message w g MSG_WARNING) = summary)
    by (unfold summary; now destruct b).
  rewrite E. split; reflexivity.
Qed.

Lemma upload_and_cleanup_messages (parts : list string) (b : bool) :
  delivered w g MSG_UPLOADING = true ->
  result (upload_parts w g parts) = Ok b ->
  messages (trace (upload_and_cleanup w g parts))
    = [MSG_UPLOADING; if b then MSG_SUCCESS else MSG_WARNING].
Proof.
  intros Hup Hres.
  destruct (upload_and_cleanup_trace parts b Hup Hres) as [-> _].
  rewrite !messages_app, !messages_send_message.
  destruct (upload_loop_quiet w g (length parts) parts 0) as [Hq _].
  unfold upload_parts. rewrite Hq.
  destruct (result (send_telegram_message w g _)); [|reflexivity].
  rewrite cleanup_trace. now destruct (spawn w _ None).
Qed.

End Orchestrator.

(** C7.  When the uploads of [before] succeed and the upload of [failed]
    returns false, the loop over [before ++ failed :: after] ends with
    that call: its trace is the trace of the uploads of [before]
    followed by the failed call, nothing of [after] is attempted, and its
    value is false.  The summary sent afterwards is the warning, and the
    success message is not sent. *)
Theorem upload_stops_at_first_failure
    (w : World) (g : Globals) (before after : list string) (failed : string) :
  let parts := (before ++ failed :: after)%list in
  let n := length parts in
  let failed_call :=
    send_telegram_document w g failed (caption_text g (length before) n failed) in
  result (upload_loop w g n 0 before) = Ok true ->
  result failed_call = Ok false ->
  delivered w g MSG_UPLOADING = true ->
  upload_parts w g parts =
    ((trace (upload_loop w g n 0 before) ++ trace failed_call)%list, Ok false)
  /\ messages (trace (upload_and_cleanup w g parts)) = [MSG_UPLOADING; MSG_WARNING]
  /\ ~ In MSG_SUCCESS (messages (trace (upload_and_cleanup w g parts))).
Proof.
  intros parts n failed_call Hbefore Hfailed Hup.
  assert (Hloop : upload_parts w g parts =
            ((trace (upload_loop w g n 0 before) ++ trace failed_call)%list, Ok false)).
  { unfold upload_parts. fold n. unfold parts.
    now rewrite (upload_loop_stops w g n before after failed 0). }
  assert (Hmsg : messages (trace (upload_and_cleanup w g parts))
                 = [MSG_UPLOADING; MSG_WARNING]).
  { apply (upload_and_cleanup_messages w g parts false Hup). now rewrite Hloop. }
  repeat split; try assumption.
  rewrite Hmsg. intros [H|[H|[]]]; discriminate.
Qed.

Lemma upload_stops_at_first_failure_witness :
  let w := Sample.runner true Sample.MiB 0 []
             Sample.always (fun p => p =? "tmp/a_part.z01") in
  upload_parts w Sample.globals ["tmp/a_part.z01"; "tmp/a_part.z02"; "tmp/a_part.zip"] =
    ((trace (upload_loop w Sample.globals 3 0 ["tmp/a_part.z01"])
        ++ trace (send_telegram_document w Sample.globals "tmp/a_part.z02"
                    (caption_text Sample.globals 1 3 "tmp/a_part.z02")))%list, Ok false)
  /\ messages (trace (upload_and_cleanup w Sample.globals
                        ["tmp/a_part.z01"; "tmp/a_part.z02"; "tmp/a_part.zip"]))
     = [MSG_UPLOADING; MSG_WARNING]
  /\ ~ In MSG_SUCCESS
         (messages (trace (upload_and_cleanup w Sample.globals
                             ["tmp/a_part.z01"; "tmp/a_part.z02"; "tmp/a_part.zip"]))).
Proof.
  intros w.
  apply (upload_stops_at_first_failure w Sample.globals
           ["tmp/a_part.z01"] ["tmp/a_part.zip"] "tmp/a_part.z02");
    reflexivity.
Defined.

(* ================================================================= *)
(** ** The whole run *)

Lemma bind_ret_l {A B} (a : A) (f : A -> M B) : bind (ret a) f = f a.
Proof. unfold bind, ret. now destruct (f a). Qed.

Lemma bind_ext {A B} (m : M A) (f f' : A -> M B) :
  (forall a, f a = f' a) -> bind m f = bind m f'.
Proof. intros H. destruct m as [t [a|s]]; simpl; [now rewrite H | reflexivity]. Qed.

Lemma raises_only_try_except {A} (m : M A) (handler : Py.exn -> option (M A)) :
  raises_only m ->
  (forall e k, handler e = Some k -> raises_only k) ->
  raises_only (try_except m handler).
Proof.
  intros Hm Hh code. rewrite result_try_except.
  destruct (result m) as [a|[e|c]] eqn:E; try discriminate.
  - destruct (handler e) as [k|] eqn:Hk; [now apply (Hh e k) | discriminate].
  - now destruct (Hm c).
Qed.

Lemma package_raises_only (w : World) (temp_dir base : string)
    (source_paths : list string) (split_bytes : Z) :
  raises_only (package_and_split_files w temp_dir base source_paths split_bytes).
Proof.
  unfold package_and_split_files.
  apply raises_only_bind; [auto with script|]. intros _.
  apply raises_only_bind.
  - apply raises_only_try_except.
    + apply raises_only_bind; [|auto with script].
      apply (create_archive_raises_only w temp_dir base source_paths).
    + intros e k [= <-]. intros c; discriminate.
  - intros [|]; cbn [negb]; [|auto with script].
    apply raises_only_bind; [auto with script|]. intros file_size.
    apply raises_only_bind; [unfold print; auto with script|]. intros _.
    destruct (file_size >? split_bytes)%Z.
    + apply raises_only_bind; [unfold print; auto with script|]. intros _.
      apply raises_only_try_except.
      * apply raises_only_bind.
        { unfold subprocess_run_check, popen. apply raises_only_bind.
          - apply raises_only_bind; [auto with script|]. intros _.
            destruct (spawn w _ _); [auto with script | intros c; discriminate].
          - intros status. destruct (status =? 0)%Z;
              [auto with script | intros c; discriminate]. }
        intros _. apply raises_only_bind.
        { unfold os_remove. apply raises_only_bind; [auto with script|]. intros _.
          destruct (remove w _); [auto with script | intros c; discriminate]. }
        intros _. apply raises_only_bind; unfold print; auto with script.
      * intros e k. destruct e; intros [= <-]. intros c; discriminate.
    + apply raises_only_bind; unfold print; auto with script.
Qed.

Lemma package_quiet (w : World) (temp_dir base : string)
    (source_paths : list string) (split_bytes : Z) :
  messages (trace (package_and_split_files w temp_dir base source_paths split_bytes)) = []
  /\ cleanup_reached
       (trace (package_and_split_files w temp_dir base source_paths split_bytes)) = false.
Proof.
  pose proof (package_events w temp_dir base source_paths split_bytes) as H.
  induction H as [|e t He _ [IHm IHc]]; [split; reflexivity|].
  destruct e; simpl in *; try contradiction; auto.
  destruct He as [_ ->]. auto.
Qed.

Section Run.

Variable w : World.

Let g := read_globals w.

Lemma script_without_credentials :
  credentials_set w = false ->
  script w = ([EvPrint MsgCredentialsMissing], Fail (SystemExit 1)).
Proof.
  unfold credentials_set, script. fold g.
  destruct (Py.truthy (telegram_token g)), (Py.truthy (chat_id g));
    try discriminate; reflexivity.
Qed.

Lemma script_with_credentials :
  credentials_set w = true -> script w = main_execution w g.
Proof.
  unfold credentials_set, script. fold g.
  destruct (Py.truthy (telegram_token g)), (Py.truthy (chat_id g));
    try discriminate; reflexivity.
Qed.

Lemma main_execution_steps (workspace : string) :
  github_workspace g = Some workspace ->
  main_execution w g =
  (send_telegram_message w g MSG_STARTING ;;
   packaged_files <- packaging w workspace ;;
   after_packaging w packaged_files).
Proof.
  intros Hws. unfold main_execution. rewrite Hws.
  apply bind_ext. intros _. now rewrite bind_ret_l.
Qed.

End Run.

Lemma cleanup_reached_cleanup (w : World) : cleanup_reached (trace (cleanup w)) = true.
Proof. rewrite cleanup_trace. reflexivity. Qed.

(** The run, once the credentials are there, the first message is
    delivered and the workspace is set. *)
Lemma script_steps (w : World) (workspace : string) :
  let g := read_globals w in
  credentials_set w = true ->
  delivered w g MSG_STARTING = true ->
  github_workspace g = Some workspace ->
  trace (script w) =
  (trace (send_telegram_message w g MSG_STARTING)
     ++ trace (packaging w workspace)
     ++ match result (packaging w workspace) with
        | Ok packaged_files => trace (after_packaging w packaged_files)
        | Fail _ => []
        end)%list
  /\ result (script w) =
     match result (packaging w workspace) with
     | Ok packaged_files => result (after_packaging w packaged_files)
     | Fail s => Fail s
     end.
Proof.
  intros g Hcred Hstart Hws. subst g.
  rewrite script_with_credentials by assumption.
  rewrite (main_execution_steps w workspace Hws).
  rewrite trace_bind, result_bind, send_message_delivered by assumption.
  cbn [result snd trace fst]. rewrite trace_bind, result_bind. auto.
Qed.

(** C1, as stated, fails.  On the first runner the archive is built but
    [zip -s] fails: the part list is empty and the run ends by [exit(1)]
    at line 149.  On the second every upload succeeds but the final
    summary cannot be delivered: [send_telegram_message] ends the run by
    [exit(1)] at line 34.  Neither run reaches the [rm -rf] of line 167. *)
Lemma cleanup_not_reached :
  (result (script Sample.split_fails) = Fail (SystemExit 1)
   /\ cleanup_reached (trace (script Sample.split_fails)) = false)
  /\ (result (script Sample.mute_at_end) = Fail (SystemExit 1)
      /\ cleanup_reached (trace (script Sample.mute_at_end)) = false).
Proof. repeat split; reflexivity. Qed.

(** C1, amended.  In a run with credentials and workspace in which the
    status messages are delivered and packaging returns a non-empty part
    list, the [rm -rf] of the temporary directory is reached, whether
    every upload succeeds ([b = true]) or one fails ([b = false]). *)
Theorem cleanup_reached_after_uploads
    (w : World) (workspace : string) (parts : list string) (b : bool) :
  let g := read_globals w in
  credentials_set w = true ->
  github_workspace g = Some workspace ->
  (forall text, delivered w g text = true) ->
  result (packaging w workspace) = Ok parts ->
  parts <> [] ->
  result (upload_parts w g parts) = Ok b ->
  cleanup_reached (trace (script w)) = true.
Proof.
  intros g Hcred Hws Hdel Hpkg Hne Hup. subst g.
  destruct (script_steps w workspace Hcred (Hdel _) Hws) as [-> _].
  rewrite Hpkg.
  assert (Hafter : after_packaging w parts
                   = upload_and_cleanup w (read_globals w) parts)
    by (destruct parts; [contradiction | reflexivity]).
  rewrite Hafter.
  destruct (upload_and_cleanup_trace w _ parts b (Hdel _) Hup) as [-> _].
  rewrite (send_message_delivered w _ (if b then _ else _)) by apply Hdel.
  cbn [result snd].
  rewrite !cleanup_reached_app, cleanup_reached_cleanup.
  now rewrite !orb_true_r.
Qed.

Lemma cleanup_reached_after_uploads_witness :
  cleanup_reached (trace (script Sample.rejecting)) = true.
Proof.
  apply (cleanup_reached_after_uploads Sample.rejecting "/work"
           ["telegram_package_temp/full_build_env_7.zip"] false).
  - reflexivity.
  - reflexivity.
  - intros text. reflexivity.
  - reflexivity.
  - discriminate.
  - reflexivity.
Defined.

(** C9, as stated, fails: with credentials set and a non-empty part
    list, the upload is refused and the warning cannot be delivered;
    the run ends with exit status 1. *)
Lemma upload_failure_with_exit_status_1 :
  credentials_set Sample.rejecting_mute = true
  /\ result (packaging Sample.rejecting_mute "/work")
     = Ok ["telegram_package_temp/full_build_env_7.zip"]
  /\ result (upload_parts Sample.rejecting_mute (read_globals Sample.rejecting_mute)
               ["telegram_package_temp/full_build_env_7.zip"]) = Ok false
  /\ exit_status (result (script Sample.rejecting_mute)) = 1%Z.
Proof. repeat split; reflexivity. Qed.

Lemma packaging_messages (w : World) (workspace : string) :
  messages (trace (packaging w workspace)) = [].
Proof. apply package_quiet. Qed.

Section ExitStatus.

Variable w : World.

Let g := read_globals w.

Lemma after_packaging_nothing :
  result (after_packaging w []) = Fail (SystemExit 1).
Proof.
  unfold after_packaging. rewrite result_bind.
  destruct (delivered w (read_globals w) MSG_PACKAGING_FAILED) eqn:E;
    [rewrite send_message_delivered | rewrite send_message_failed]; auto.
Qed.

Lemma upload_and_cleanup_undelivered (parts : list string) :
  delivered w g MSG_UPLOADING = false ->
  upload_and_cleanup w g parts = send_telegram_message w g MSG_UPLOADING.
Proof.
  intros H. unfold upload_and_cleanup. now rewrite send_message_failed.
Qed.

Lemma upload_and_cleanup_upload_aborts (parts : list string) (s : abort) :
  delivered w g MSG_UPLOADING = true ->
  result (upload_parts w g parts) = Fail s ->
  result (upload_and_cleanup w g parts) = Fail s.
Proof.
  intros Hup Hres. unfold upload_and_cleanup.
  rewrite result_bind, send_message_delivered by assumption.
  cbn [result snd]. now rewrite result_bind, Hres.
Qed.

(** How lines 151-168 can end other than with status 0. *)
Lemma upload_and_cleanup_status (parts : list string) :
  exit_status (result (upload_and_cleanup w g parts)) <> 0%Z ->
  exit_status (result (upload_and_cleanup w g parts)) = 1%Z
  /\ ((exists text, In text (messages (trace (upload_and_cleanup w g parts)))
                    /\ delivered w g text = false)
      \/ exists e, result (upload_and_cleanup w g parts) = Fail (Raised e)).
Proof.
  intros Hst.
  destruct (delivered w g MSG_UPLOADING) eqn:Hup.
  2:{ rewrite upload_and_cleanup_undelivered by assumption.
      rewrite messages_send_message, send_message_failed by assumption.
      split; [reflexivity|]. left. exists MSG_UPLOADING. split; [now left | assumption]. }
  destruct (result (upload_parts w g parts)) as [b|[e|c]] eqn:Hres.
  3:{ destruct (upload_loop_quiet w g (length parts) parts 0) as [_ [_ Hr]].
      now destruct (Hr c). }
  2:{ rewrite (upload_and_cleanup_upload_aborts parts _ Hup Hres).
      split; [reflexivity|]. right. now exists e. }
  rewrite (upload_and_cleanup_messages w g parts b Hup Hres).
  destruct (upload_and_cleanup_trace w g parts b Hup Hres) as [_ Hr].
  rewrite Hr in *. clear Hr.
  destruct (delivered w g (if b then MSG_SUCCESS else MSG_WARNING)) eqn:Hsum.
  - rewrite send_message_delivered in * by assumption. cbn [result snd] in *.
    rewrite cleanup_result in *.
    destruct (spawn w _ None); [now contradiction Hst|].
    split; [reflexivity|]. right. now exists Py.OSError.
  - rewrite send_message_failed by assumption. cbn [result snd].
    split; [reflexivity|]. left. exists (if b then MSG_SUCCESS else MSG_WARNING).
    split; [right; now left | assumption].
Qed.

End ExitStatus.

(** C9, amended.  A failed upload does not change the exit status: in a
    run with credentials and workspace in which the status messages are
    delivered, packaging returns a non-empty list, an upload fails and
    [rm] can be started, the messages are the start notice, the upload
    notice and the warning, and the exit status is 0.  A non-zero exit
    status is always 1, and it comes from missing credentials, from an
    empty part list, from a status message that could not be delivered
    ([exit(1)] in [send_telegram_message]), or from an uncaught
    exception. *)
Theorem exit_status_of_the_run (w : World) :
  let g := read_globals w in
  (forall workspace parts status,
     credentials_set w = true ->
     github_workspace g = Some workspace ->
     (forall text, delivered w g text = true) ->
     result (packaging w workspace) = Ok parts ->
     parts <> [] ->
     result (upload_parts w g parts) = Ok false ->
     spawn w ["rm"; "-rf"; temp_packaging_dir] None = Some status ->
     exit_status (result (script w)) = 0%Z
     /\ messages (trace (script w)) = [MSG_STARTING; MSG_UPLOADING; MSG_WARNING])
  /\
  (exit_status (result (script w)) <> 0%Z ->
   exit_status (result (script w)) = 1%Z
   /\ (credentials_set w = false
       \/ (exists workspace,
             github_workspace g = Some workspace
             /\ result (packaging w workspace) = Ok [])
       \/ (exists text,
             In text (messages (trace (script w))) /\ delivered w g text = false)
       \/ (exists e, result (script w) = Fail (Raised e)))).
Proof.
  intros g. subst g. split.
  - intros workspace parts status Hcred Hws Hdel Hpkg Hne Hup Hrm.
    destruct (script_steps w workspace Hcred (Hdel _) Hws) as [-> ->].
    rewrite Hpkg.
    assert (Hafter : after_packaging w parts
                     = upload_and_cleanup w (read_globals w) parts)
      by (destruct parts; [contradiction | reflexivity]).
    rewrite Hafter.
    rewrite !messages_app, messages_send_message.
    rewrite packaging_messages.
    rewrite (upload_and_cleanup_messages w _ parts false (Hdel _) Hup).
    destruct (upload_and_cleanup_trace w _ parts false (Hdel _) Hup) as [_ ->].
    rewrite send_message_delivered by apply Hdel. cbn [result snd].
    rewrite cleanup_result, Hrm. split; reflexivity.
  - intros Hst.
    destruct (credentials_set w) eqn:Hcred.
    2:{ rewrite script_without_credentials by assumption. auto. }
    destruct (delivered w (read_globals w) MSG_STARTING) eqn:Hstart.
    2:{ rewrite script_with_credentials in * by assumption.
        unfold main_execution in *.
        rewrite (bind_Fail _ _ (SystemExit 1)) in *
          by now rewrite send_message_failed.
        cbn [result snd trace fst]. split; [reflexivity|].
        right. right. left. exists MSG_STARTING.
        rewrite messages_send_message. split; [now left | assumption]. }
    destruct (github_workspace (read_globals w)) as [workspace|] eqn:Hws.
    2:{ rewrite script_with_credentials in * by assumption.
        unfold main_execution in *. rewrite Hws in *.
        rewrite result_bind, send_message_delivered in * by assumption.
        cbn in *. split; [reflexivity|].
        right. right. right. now exists Py.TypeError. }
    destruct (script_steps w workspace Hcred Hstart Hws) as [Ht Hr].
    rewrite Hr, Ht in *. clear Hr Ht.
    destruct (result (packaging w workspace)) as [[|p parts]|[e|c]] eqn:Hpkg.
    + rewrite after_packaging_nothing. split; [reflexivity|].
      right. left. exists workspace. auto.
    + cbn [after_packaging] in *.
      destruct (upload_and_cleanup_status w (p :: parts) Hst) as [H1 [[text [Hin Hd]]|He]].
      * split; [assumption|]. right. right. left. exists text. split; [|assumption].
        rewrite !messages_app. apply in_or_app. right. apply in_or_app. now right.
      * split; [assumption|]. now (right; right; right).
    + split; [reflexivity|]. right. right. right. now exists e.
    + now destruct (package_raises_only w temp_packaging_dir
                      ("full_build_env_" ++ Py.str (run_number (read_globals w)))
                      (source_dirs w workspace) MAX_TELEGRAM_CHUNK_BYTES c).
Qed.

Lemma exit_status_of_the_run_witness :
  exit_status (result (script Sample.rejecting)) = 0%Z
  /\ messages (trace (script Sample.rejecting))
     = [MSG_STARTING; MSG_UPLOADING; MSG_WARNING].
Proof.
  apply (proj1 (exit_status_of_the_run Sample.rejecting) "/work"
           ["telegram_package_temp/full_build_env_7.zip"] 0%Z).
  - reflexivity.
  - reflexivity.
  - intros text. reflexivity.
  - reflexivity.
  - discriminate.
  - reflexivity.
  - reflexivity.
Defined.

(* ================================================================= *)
(** ** The order of the split segments *)


Section StringOrder.

Lemma ascii_compare_refl (c : ascii) : Ascii.compare c c = Eq.
Proof. unfold Ascii.compare. apply N.compare_refl. Qed.

Lemma ascii_compare_lt_trans (a b c : ascii) :
  Ascii.compare a b = Lt -> Ascii.compare b c = Lt -> Ascii.compare a c = Lt.
Proof.
  unfold Ascii.compare. rewrite !N.compare_lt_iff. apply N.lt_trans.
Qed.

Lemma compare_refl (s : string) : String.compare s s = Eq.
Proof.
  induction s as [|c s IH]; [reflexivity|]. simpl. now rewrite ascii_compare_refl.
Qed.

Lemma le_refl (s : string) : le s s.
Proof. unfold le, String.leb. now rewrite compare_refl. Qed.

Lemma le_trans (a b c : string) : le a b -> le b c -> le a c.
Proof.
  unfold le, String.leb. revert b c.
  induction a as [|x a IH]; intros [|y b] [|z c]; simpl; try congruence.
  destruct (Ascii.compare x y) eqn:Exy; try discriminate;
    destruct (Ascii.compare y z) eqn:Eyz; try discriminate.
  - apply Ascii.compare_eq_iff in Exy, Eyz. subst.
    rewrite ascii_compare_refl. apply IH.
  - apply Ascii.compare_eq_iff in Exy. subst. now rewrite Eyz.
  - apply Ascii.compare_eq_iff in Eyz. subst. now rewrite Exy.
  - now rewrite (ascii_compare_lt_trans x y z).
Qed.

Lemma le_antisym (a b : string) : le a b -> le b a -> a = b.
Proof. apply String.leb_antisym. Qed.

Lemma le_total (a b : string) : le a b \/ le b a.
Proof. apply String.leb_total. Qed.

(** A common prefix does not change the comparison. *)
Lemma leb_common_prefix (p a b : string) :
  String.leb (p ++ a) (p ++ b) = String.leb a b.
Proof.
  unfold String.leb. induction p as [|c p IH]; [reflexivity|].
  simpl. now rewrite ascii_compare_refl.
Qed.

Lemma strongly_sortedb_sound (l : list string) :
  strongly_sortedb l = true -> StronglySorted le l.
Proof.
  induction l as [|x l IH]; simpl; [constructor|].
  rewrite andb_true_iff, forallb_forall. intros [Hx Hl].
  constructor; [now apply IH|]. rewrite Forall_forall. exact Hx.
Qed.

Lemma StronglySorted_map_prefix (p : string) (l : list string) :
  StronglySorted le l -> StronglySorted le (map (append p) l).
Proof.
  induction 1 as [|x l _ IH Hx]; simpl; constructor; [assumption|].
  rewrite Forall_map. eapply Forall_impl; [|exact Hx].
  intros y Hy. unfold le. now rewrite leb_common_prefix.
Qed.

Lemma insert_perm (x : string) (l : list string) :
  Permutation (Py.insert x l) (x :: l).
Proof.
  induction l as [|y l IH]; simpl; [reflexivity|].
  destruct (String.leb x y); [reflexivity|].
  rewrite IH. apply perm_swap.
Qed.

Lemma sorted_perm (l : list string) : Permutation (Py.sorted l) l.
Proof.
  unfold Py.sorted. induction l as [|x l IH]; simpl; [reflexivity|].
  rewrite insert_perm. now constructor.
Qed.

Lemma insert_sorted (x : string) (l : list string) :
  StronglySorted le l -> StronglySorted le (Py.insert x l).
Proof.
  induction 1 as [|y l Hl IH Hy]; simpl.
  - repeat constructor.
  - destruct (String.leb x y) eqn:Exy.
    + constructor; [now constructor|]. constructor; [exact Exy|].
      eapply Forall_impl; [|exact Hy]. intros z Hz. now apply le_trans with y.
    + constructor; [assumption|].
      apply Permutation_Forall with (x :: l).
      * symmetry. apply insert_perm.
      * constructor; [|assumption].
        destruct (le_total x y) as [H|H]; [unfold le in H; congruence | exact H].
Qed.

Lemma sorted_sorted (l : list string) : StronglySorted le (Py.sorted l).
Proof.
  unfold Py.sorted. induction l as [|x l IH]; simpl; [constructor|].
  now apply insert_sorted.
Qed.

(** Two sorted lists with the same elements are the same list. *)
Lemma sorted_unique (l1 : list string) :
  forall l2, StronglySorted le l1 -> StronglySorted le l2 ->
             Permutation l1 l2 -> l1 = l2.
Proof.
  induction l1 as [|a l1 IH]; intros l2 H1 H2 Hp.
  - apply Permutation_nil in Hp. now subst.
  - destruct l2 as [|b l2]; [apply Permutation_sym, Permutation_nil in Hp; discriminate|].
    apply StronglySorted_inv in H1, H2.
    destruct H1 as [H1 Ha], H2 as [H2 Hb].
    rewrite Forall_forall in Ha, Hb.
    assert (a = b) as <-.
    { assert (Hina : In a (b :: l2)) by (eapply Permutation_in; [exact Hp | now left]).
      assert (Hinb : In b (a :: l1))
        by (eapply Permutation_in; [symmetry; exact Hp | now left]).
      destruct Hina as [->|Hina]; [reflexivity|].
      destruct Hinb as [->|Hinb]; [reflexivity|].
      apply le_antisym; auto. }
    f_equal. apply IH; try assumption. now apply Permutation_cons_inv in Hp.
Qed.

Lemma sorted_of_permutation (found target : list string) :
  StronglySorted le target -> Permutation found target -> Py.sorted found = target.
Proof.
  intros Ht Hp. apply sorted_unique; [apply sorted_sorted | assumption|].
  now rewrite sorted_perm.
Qed.

End StringOrder.

Section Segments.

Lemma append_assoc (a b c : string) : (a ++ b) ++ c = a ++ (b ++ c).
Proof. induction a as [|x a IH]; simpl; [reflexivity | now rewrite IH]. Qed.

Lemma join_append (a x s : string) :
  x <> "" -> Py.join a (x ++ s) = Py.join a x ++ s.
Proof.
  intros Hx. unfold Py.join.
  assert (E : Py.startswith_sep (x ++ s) = Py.startswith_sep x)
    by (destruct x; [contradiction | reflexivity]).
  rewrite E. destruct (Py.startswith_sep x); [reflexivity|].
  destruct ((a =? "") || Py.endswith_sep a); now rewrite !append_assoc.
Qed.

Lemma segment_paths_prefix (temp_dir base : string) (numbered : nat) :
  segment_paths temp_dir base numbered =
  map (append (Py.join temp_dir (base ++ "_part."))) (segment_suffixes numbered).
Proof.
  unfold segment_paths. apply map_ext. intros suffix.
  rewrite <- join_append, append_assoc; [reflexivity|].
  destruct base; discriminate.
Qed.

(** Up to [z99] the suffixes are in lexicographic order, [zip] last. *)
Lemma segment_suffixes_sorted (numbered : nat) :
  numbered <= 99 -> StronglySorted le (segment_suffixes numbered).
Proof.
  intros H. apply strongly_sortedb_sound.
  assert (Hall : forallb (fun k => strongly_sortedb (segment_suffixes k)) (seq 0 100) = true)
    by (vm_compute; reflexivity).
  rewrite forallb_forall in Hall. apply Hall. apply in_seq. lia.
Qed.

Lemma segment_paths_sorted (temp_dir base : string) (numbered : nat) :
  numbered <= 99 -> StronglySorted le (segment_paths temp_dir base numbered).
Proof.
  intros H. rewrite segment_paths_prefix.
  now apply StronglySorted_map_prefix, segment_suffixes_sorted.
Qed.

(** With at most 99 numbered segments, sorting what the glob finds gives
    the segments in the order in which they were written. *)
Lemma sorted_segments_in_sequence (temp_dir base : string) (numbered : nat)
    (found : list string) :
  numbered <= 99 ->
  Permutation found (segment_paths temp_dir base numbered) ->
  Py.sorted found = segment_paths temp_dir base numbered.
Proof.
  intros H Hp. now apply sorted_of_permutation; [apply segment_paths_sorted|].
Qed.

End Segments.

(** C5, amended.  When the archive exceeds the threshold, the split tool
    exits with status 0 and [os.remove] succeeds, the unsplit archive is
    removed right after the split, and the returned list is the sorted
    list of what the glob for [<base>_part.z*] finds: sorted
    lexicographically, and with the same elements.  If these are the
    segments of an archive split in at most 99 numbered segments and the
    final [.zip], the list is in the order in which the segments were
    written. *)
Theorem split_parts_sorted
    (w : World) (temp_dir base : string) (source_paths : list string)
    (split_bytes file_size : Z) :
  let full_zip_path := Py.join temp_dir (base ++ ".zip") in
  let found := glob w (Py.join temp_dir (base ++ "_part.z*")) in
  let packaged := package_and_split_files w temp_dir base source_paths split_bytes in
  makedirs w temp_dir = Py.Returns tt ->
  result (create_archive w full_zip_path source_paths) = Ok tt ->
  getsize w full_zip_path = Py.Returns file_size ->
  (file_size > split_bytes)%Z ->
  spawn w (split_command temp_dir base full_zip_path) (Some temp_dir) = Some 0%Z ->
  remove w full_zip_path = true ->
  (exists before after,
     trace packaged =
     (before ++ EvRun (split_command temp_dir base full_zip_path) (Some temp_dir)
             :: EvRemove full_zip_path :: after)%list
     /\ Forall (fun e => match e with EvPrint _ => True | _ => False end) after)
  /\ (exists parts,
        result packaged = Ok parts
        /\ StronglySorted le parts
        /\ Permutation parts found
        /\ forall numbered,
             numbered <= 99 ->
             Permutation found (segment_paths temp_dir base numbered) ->
             parts = segment_paths temp_dir base numbered).
Proof.
  intros full_zip_path found packaged Hmk Hcr Hsz Hgt Hrun Hrm.
  unfold packaged.
  rewrite (package_split_ok w temp_dir base source_paths split_bytes file_size)
    by assumption.
  split.
  - exists (EvMakedirs temp_dir
              :: trace (create_archive w full_zip_path source_paths)
              ++ [EvPrint (MsgZipSize file_size);
                  EvPrint (MsgSplitting MAX_TELEGRAM_CHUNK_MB)])%list.
    eexists. split.
    + cbn [trace fst]. rewrite <- app_comm_cons, <- app_assoc. reflexivity.
    + now repeat constructor.
  - exists (Py.sorted found). repeat split.
    + apply sorted_sorted.
    + apply sorted_perm.
    + intros numbered Hn Hp. now apply sorted_segments_in_sequence.
Qed.

Lemma split_parts_sorted_witness :
  let found := ["/tmp/pkg/env_part.z02"; "/tmp/pkg/env_part.zip";
                "/tmp/pkg/env_part.z01"; "/tmp/pkg/env_part.z03"] in
  let w := Sample.runner true (150 * Sample.MiB) 0 found
             Sample.always Sample.always in
  result (package_and_split_files w "/tmp/pkg" "env"
            Sample.sources MAX_TELEGRAM_CHUNK_BYTES)
    = Ok ["/tmp/pkg/env_part.z01"; "/tmp/pkg/env_part.z02";
          "/tmp/pkg/env_part.z03"; "/tmp/pkg/env_part.zip"].
Proof.
  intros found w.
  destruct (split_parts_sorted w "/tmp/pkg" "env" Sample.sources
              MAX_TELEGRAM_CHUNK_BYTES (150 * Sample.MiB))
    as [_ [parts [Hres [_ [_ Hseq]]]]].
  - reflexivity.
  - reflexivity.
  - reflexivity.
  - reflexivity.
  - reflexivity.
  - reflexivity.
  - rewrite Hres. f_equal. apply (Hseq 3).
    + repeat constructor.
    + apply Permutation_sym. exact (sorted_perm found).
Defined.

(** C5, as stated, fails from the hundredth numbered segment on.  On a
    call with an absolute directory, an archive of 4901 MiB is split by
    [zip -s 49m] in the segments [z01] ... [z100] and the final [.zip].
    The list returned by [package_and_split_files] is sorted
    lexicographically and is not their sequence: [z100] comes in
    eleventh place, between [z10] and [z11]. *)
Lemma hundred_segments_out_of_sequence :
  let segments := segment_paths "/tmp/pkg" "env" 100 in
  let w := Sample.runner true (4901 * Sample.MiB) 0 segments
             Sample.always Sample.always in
  exists parts,
    result (package_and_split_files w "/tmp/pkg" "env"
              Sample.sources MAX_TELEGRAM_CHUNK_BYTES) = Ok parts
    /\ removals (trace (package_and_split_files w "/tmp/pkg" "env"
                          Sample.sources MAX_TELEGRAM_CHUNK_BYTES))
       = ["/tmp/pkg/env.zip"]
    /\ StronglySorted le parts
    /\ Permutation parts segments
    /\ parts <> segments
    /\ nth_error parts 9 = Some "/tmp/pkg/env_part.z10"
    /\ nth_error parts 10 = Some "/tmp/pkg/env_part.z100"
    /\ nth_error parts 11 = Some "/tmp/pkg/env_part.z11"
    /\ nth_error segments 10 = Some "/tmp/pkg/env_part.z11"
    /\ nth_error segments 99 = Some "/tmp/pkg/env_part.z100"
    /\ nth_error segments 100 = Some "/tmp/pkg/env_part.zip".
Proof.
  intros segments w. exists (Py.sorted segments).
  split; [vm_compute; reflexivity|].
  split; [vm_compute; reflexivity|].
  split; [apply sorted_sorted|].
  split; [apply sorted_perm|].
  split; [|repeat split; vm_compute; reflexivity].
  intros H. apply (f_equal (fun l => nth_error l 10)) in H.
  vm_compute in H. discriminate.
Qed.

(* ================================================================= *)
(** ** Every way [package_and_split_files] can end *)

Section PackagingCases.

Variable w : World.
Variables temp_dir base : string.
Variable source_paths : list string.
Variable split_bytes : Z.

Let full_zip_path := Py.join temp_dir (base ++ ".zip").
Let creation := create_archive w full_zip_path source_paths.
Let command := split_command temp_dir base full_zip_path.
Let pattern := Py.join temp_dir (base ++ "_part.z*").
Let packaged := package_and_split_files w temp_dir base source_paths split_bytes.

(** The directory cannot be made: line 69 is outside every [try]. *)
Lemma package_makedirs_raises (e : Py.exn) :
  makedirs w temp_dir = Py.Raises e ->
  packaged = ([EvMakedirs temp_dir], Fail (Raised e)).
Proof.
  intros H. unfold packaged, package_and_split_files. now rewrite H.
Qed.

(** The size cannot be read: line 92 is outside every [try]. *)
Lemma package_getsize_raises (e : Py.exn) :
  makedirs w temp_dir = Py.Returns tt ->
  result creation = Ok tt ->
  getsize w full_zip_path = Py.Raises e ->
  packaged = (EvMakedirs temp_dir :: trace creation, Fail (Raised e)).
Proof.
  intros Hmk Hcr Hsz. unfold packaged, package_and_split_files.
  fold full_zip_path. fold creation.
  rewrite Hmk, Hsz. rewrite (surjective_M creation), Hcr. simpl.
  now rewrite !app_nil_r.
Qed.

(** The split tool cannot be started: the [OSError] is not a
    [CalledProcessError]. *)
Lemma package_split_not_started (file_size : Z) :
  makedirs w temp_dir = Py.Returns tt ->
  result creation = Ok tt ->
  getsize w full_zip_path = Py.Returns file_size ->
  (file_size > split_bytes)%Z ->
  spawn w command (Some temp_dir) = None ->
  packaged =
  (EvMakedirs temp_dir :: trace creation
     ++ [EvPrint (MsgZipSize file_size); EvPrint (MsgSplitting MAX_TELEGRAM_CHUNK_MB);
         EvRun command (Some temp_dir)],
   Fail (Raised Py.OSError))%list.
Proof.
  intros Hmk Hcr Hsz Hgt Hrun. unfold packaged, package_and_split_files.
  fold full_zip_path. fold creation. fold command.
  rewrite Hmk, Hsz. rewrite (surjective_M creation), Hcr. simpl.
  destruct (Z.gtb_spec file_size split_bytes) as [_|Hle]; [|lia].
  simpl. unfold subprocess_run_check, popen. simpl. rewrite Hrun. simpl.
  now rewrite !app_nil_r.
Qed.

(** The archive is split but cannot be removed. *)
Lemma package_remove_fails (file_size : Z) :
  makedirs w temp_dir = Py.Returns tt ->
  result creation = Ok tt ->
  getsize w full_zip_path = Py.Returns file_size ->
  (file_size > split_bytes)%Z ->
  spawn w command (Some temp_dir) = Some 0%Z ->
  remove w full_zip_path = false ->
  packaged =
  (EvMakedirs temp_dir :: trace creation
     ++ [EvPrint (MsgZipSize file_size); EvPrint (MsgSplitting MAX_TELEGRAM_CHUNK_MB);
         EvRun command (Some temp_dir); EvRemove full_zip_path],
   Fail (Raised Py.OSError))%list.
Proof.
  intros Hmk Hcr Hsz Hgt Hrun Hrm. unfold packaged, package_and_split_files.
  fold full_zip_path. fold creation. fold command.
  rewrite Hmk, Hsz. rewrite (surjective_M creation), Hcr. simpl.
  destruct (Z.gtb_spec file_size split_bytes) as [_|Hle]; [|lia].
  simpl. unfold subprocess_run_check, popen, os_remove. simpl. rewrite Hrun. simpl.
  rewrite Hrm. simpl. now rewrite !app_nil_r.
Qed.

Lemma package_cases :
  exists how, ended w temp_dir base source_paths split_bytes how.
Proof.
  destruct (makedirs w temp_dir) as [[]|e] eqn:Hmk.
  2:{ exists (MakedirsRaised e); unfold ended; cbv beta iota zeta. repeat split; try assumption.
      now apply package_makedirs_raises. }
  destruct (result creation) as [[]|[e|c]] eqn:Hcr.
  3:{ now destruct (create_archive_raises_only w temp_dir base source_paths c). }
  2:{ exists (CreationFailed e); unfold ended; cbv beta iota zeta. repeat split; try assumption.
      now apply package_creation_fails. }
  destruct (getsize w full_zip_path) as [file_size|e] eqn:Hsz.
  2:{ exists (GetsizeRaised e); unfold ended; cbv beta iota zeta. repeat split; try assumption.
      now apply package_getsize_raises. }
  destruct (Z_le_gt_dec file_size split_bytes) as [Hle|Hgt].
  { exists (NoSplitNeeded file_size); unfold ended; cbv beta iota zeta. repeat split; try assumption.
    now apply package_no_split. }
  destruct (spawn w command (Some temp_dir)) as [status|] eqn:Hrun.
  2:{ exists (SplitNotStarted file_size); unfold ended; cbv beta iota zeta. repeat split; try assumption.
      now apply package_split_not_started. }
  destruct (Z.eq_dec status 0) as [->|Hst].
  2:{ exists (SplitFailed file_size status); unfold ended; cbv beta iota zeta. repeat split; try assumption.
      eapply package_split_fails; eassumption. }
  destruct (remove w full_zip_path) eqn:Hrm.
  - exists (SplitDone file_size); unfold ended; cbv beta iota zeta. repeat split; try assumption.
    now apply package_split_ok.
  - exists (RemoveFailed file_size); unfold ended; cbv beta iota zeta. repeat split; try assumption.
    now apply package_remove_fails.
Qed.

End PackagingCases.

Lemma opens_app (t1 t2 : list event) : opens (t1 ++ t2) = (opens t1 ++ opens t2)%list.
Proof. apply flat_map_app. Qed.

Lemma closes_app (t1 t2 : list event) : closes (t1 ++ t2) = (closes t1 ++ closes t2)%list.
Proof. apply flat_map_app. Qed.

Lemma removals_app (t1 t2 : list event) :
  removals (t1 ++ t2) = (removals t1 ++ removals t2)%list.
Proof. apply flat_map_app. Qed.

(** Building the archive sends nothing, opens no upload handle and
    removes nothing. *)
Lemma create_archive_local (w : World) (full_zip_path : string)
    (source_paths : list string) :
  let t := trace (create_archive w full_zip_path source_paths) in
  messages t = [] /\ documents t = [] /\ opens t = [] /\ removals t = [].
Proof.
  intros t. subst t.
  pose proof (create_archive_entries w full_zip_path source_paths) as H.
  induction H as [|e t He _ [IH1 [IH2 [IH3 IH4]]]]; [repeat split|].
  destruct e; simpl in *; try contradiction; auto.
Qed.

Ltac views_of_package :=
  cbn [trace fst result snd];
  rewrite ?app_comm_cons;
  rewrite ?messages_app, ?documents_app, ?opens_app, ?removals_app, ?commands_app;
  cbn [messages documents opens removals commands flat_map app].

(** X1.  Whenever [package_and_split_files] returns a list, it is the
    empty list, the single path of the unsplit archive, or the sorted
    list of what the glob found; in every case the list is in
    lexicographic order. *)
Theorem returned_parts_are_sorted
    (w : World) (temp_dir base : string) (source_paths : list string)
    (split_bytes : Z) (parts : list string) :
  result (package_and_split_files w temp_dir base source_paths split_bytes) = Ok parts ->
  (parts = []
   \/ parts = [Py.join temp_dir (base ++ ".zip")]
   \/ parts = Py.sorted (glob w (Py.join temp_dir (base ++ "_part.z*"))))
  /\ StronglySorted le parts.
Proof.
  intros Hres.
  destruct (package_cases w temp_dir base source_paths split_bytes) as [how H].
  destruct how; cbv beta iota zeta delta [ended] in H;
    repeat match type of H with _ /\ _ => destruct H as [_ H] end;
    rewrite H in Hres; cbn [result snd] in Hres; try discriminate;
    injection Hres as <-.
  - split; [now left | constructor].
  - split; [right; now left | repeat constructor].
  - split; [now left | constructor].
  - split; [right; now right | apply sorted_sorted].
Qed.

Lemma returned_parts_are_sorted_witness :
  (["telegram_package_temp/full_build_env_7.zip"] = []
   \/ ["telegram_package_temp/full_build_env_7.zip"]
      = [Py.join temp_packaging_dir ("full_build_env_7" ++ ".zip")]
   \/ ["telegram_package_temp/full_build_env_7.zip"]
      = Py.sorted (glob Sample.quiet
                     (Py.join temp_packaging_dir ("full_build_env_7" ++ "_part.z*"))))
  /\ StronglySorted le ["telegram_package_temp/full_build_env_7.zip"].
Proof.
  apply (returned_parts_are_sorted Sample.quiet temp_packaging_dir "full_build_env_7"
           Sample.sources MAX_TELEGRAM_CHUNK_BYTES).
  reflexivity.
Defined.

(** X2.  [package_and_split_files] works on the local machine only: it
    sends no status message and no document and opens no upload handle.
    It starts at most one sub-process, the split command.  It removes at
    most one file, the unsplit archive, and only after the split command
    was run and exited with status 0. *)
Theorem packaging_stays_local
    (w : World) (temp_dir base : string) (source_paths : list string) (split_bytes : Z) :
  let full_zip_path := Py.join temp_dir (base ++ ".zip") in
  let command := split_command temp_dir base full_zip_path in
  let t := trace (package_and_split_files w temp_dir base source_paths split_bytes) in
  messages t = [] /\ documents t = [] /\ opens t = []
  /\ (commands t = [] \/ commands t = [command])
  /\ (removals t = []
      \/ (removals t = [full_zip_path] /\ commands t = [command]
          /\ spawn w command (Some temp_dir) = Some 0%Z)).
Proof.
  intros full_zip_path command t. subst t.
  destruct (create_archive_local w full_zip_path source_paths) as [Hm [Hd [Ho Hr]]].
  pose proof (create_archive_commands w full_zip_path source_paths) as Hc.
  unfold messages, documents, opens, removals, commands in Hm, Hd, Ho, Hr, Hc.
  destruct (package_cases w temp_dir base source_paths split_bytes) as [how H].
  destruct how; cbv beta iota zeta delta [ended] in H;
    fold full_zip_path in H; fold command in H;
    repeat match type of H with
           | _ /\ _ => let H' := fresh "F" in destruct H as [H' H]
           end;
    rewrite H; views_of_package; rewrite ?Hm, ?Hd, ?Ho, ?Hr, ?Hc;
    cbn [app]; repeat split; auto.
Qed.

(** X3.  [package_and_split_files] raises, instead of returning a list,
    in exactly four situations, all outside what its two [except] clauses
    catch: the temporary directory cannot be made; the size of the built
    archive cannot be read; the split tool cannot be started; the
    unsplit archive cannot be removed after a successful split.  A
    failure inside the archive construction never makes it raise. *)
Theorem packaging_raises_iff
    (w : World) (temp_dir base : string) (source_paths : list string) (split_bytes : Z) :
  let full_zip_path := Py.join temp_dir (base ++ ".zip") in
  let command := split_command temp_dir base full_zip_path in
  (exists e,
     result (package_and_split_files w temp_dir base source_paths split_bytes)
     = Fail (Raised e))
  <->
  ((exists e, makedirs w temp_dir = Py.Raises e)
   \/ (makedirs w temp_dir = Py.Returns tt
       /\ result (create_archive w full_zip_path source_paths) = Ok tt
       /\ ((exists e, getsize w full_zip_path = Py.Raises e)
           \/ (exists file_size,
                 getsize w full_zip_path = Py.Returns file_size
                 /\ (file_size > split_bytes)%Z
                 /\ (spawn w command (Some temp_dir) = None
                     \/ (spawn w command (Some temp_dir) = Some 0%Z
                         /\ remove w full_zip_path = false)))))).
Proof.
  intros full_zip_path command. split.
  - intros [e He].
    destruct (package_cases w temp_dir base source_paths split_bytes) as [how H].
    destruct how; cbv beta iota zeta delta [ended] in H;
      fold full_zip_path in H; fold command in H;
      repeat match type of H with
             | _ /\ _ => let H' := fresh "F" in destruct H as [H' H]
             end;
      rewrite H in He; cbn [result snd] in He; try discriminate.
    + left. eauto.
    + right. repeat split; try assumption. left. eauto.
    + right. repeat split; try assumption. right. eauto 6.
    + right. repeat split; try assumption. right. eauto 8.
  - intros [[e He]|[Hmk [Hcr [[e He]|[file_size [Hsz [Hgt [Hrun|[Hrun Hrm]]]]]]]]].
    + exists e. now rewrite (package_makedirs_raises w temp_dir base source_paths split_bytes e).
    + exists e.
      now rewrite (package_getsize_raises w temp_dir base source_paths split_bytes e).
    + exists Py.OSError.
      now rewrite (package_split_not_started w temp_dir base source_paths
                     split_bytes file_size).
    + exists Py.OSError.
      now rewrite (package_remove_fails w temp_dir base source_paths
                     split_bytes file_size).
Qed.

Lemma packaging_raises_iff_witness :
  exists e,
    result (package_and_split_files Faulty.no_zip temp_packaging_dir "full_build_env_7"
              Sample.sources MAX_TELEGRAM_CHUNK_BYTES) = Fail (Raised e).
Proof.
  apply (proj2 (packaging_raises_iff Faulty.no_zip temp_packaging_dir "full_build_env_7"
                  Sample.sources MAX_TELEGRAM_CHUNK_BYTES)).
  right. split; [reflexivity|]. split; [reflexivity|]. right.
  exists (150 * Sample.MiB)%Z. split; [reflexivity|]. split; [reflexivity|].
  left. reflexivity.
Defined.

(* ================================================================= *)
(** ** What the archive holds *)

Lemma written_app (t1 t2 : list event) :
  written (t1 ++ t2) = (written t1 ++ written t2)%list.
Proof. unfold written. now rewrite archive_entries_app, map_app. Qed.

Lemma writes_within_bind {A B} (m : M A) (f : A -> M B) (l1 l2 : list string) :
  writes_within m l1 ->
  (forall a, result m = Ok a -> writes_within (f a) l2) ->
  writes_within (bind m f) (l1 ++ l2).
Proof.
  intros [[r1 Hp1] Hc1] Hf. unfold writes_within.
  rewrite trace_bind, result_bind, written_app.
  destruct (result m) as [a|s] eqn:Hm.
  - destruct (Hf a eq_refl) as [[r2 Hp2] Hc2]. rewrite (Hc1 a eq_refl). split.
    + exists r2. now rewrite Hp2 at 1; rewrite app_assoc.
    + intros b Hb. now rewrite (Hc2 b Hb).
  - split; [|discriminate]. exists (r1 ++ l2)%list.
    now rewrite Hp1 at 1; rewrite app_nil_r, app_assoc.
Qed.

Lemma writes_within_nothing {A} (m : M A) :
  written (trace m) = [] -> writes_within m [].
Proof. intros H. unfold writes_within. rewrite H. split; [now exists [] | auto]. Qed.

Section ArchiveContents.

Variable w : World.
Variable source_paths : list string.

Lemma add_file_writes (source_path root file : string) :
  writes_within (add_file w source_paths source_path root file) [Py.join root file].
Proof.
  unfold add_file, writes_within.
  destruct (isdir w source_path); simpl.
  - destruct (relpath w _ _) as [arcname|e]; simpl.
    + destruct (zip_write w _ arcname); simpl; split; eauto; now exists [].
    + split; [now exists [Py.join root file] | discriminate].
  - destruct (commonpath w source_paths) as [start|e]; simpl.
    + destruct (relpath w _ start) as [arcname|e]; simpl.
      * destruct (zip_write w _ arcname); simpl; split; eauto; now exists [].
      * split; [now exists [Py.join root file] | discriminate].
    + split; [now exists [Py.join root file] | discriminate].
Qed.

Lemma add_files_writes (source_path root : string) (files : list string) :
  writes_within (add_files w source_paths source_path root files)
    (map (Py.join root) files).
Proof.
  induction files as [|file files IH]; [now apply writes_within_nothing|].
  cbn [add_files map].
  apply (writes_within_bind _ _ [Py.join root file]); [apply add_file_writes | auto].
Qed.

Lemma add_walk_writes (source_path : string)
    (triples : list (string * list string * list string)) :
  writes_within (add_walk w source_paths source_path triples) (walk_files triples).
Proof.
  induction triples as [|[[root dirs] files] triples IH];
    [now apply writes_within_nothing|].
  cbn [add_walk walk_files flat_map fst snd].
  apply writes_within_bind; [apply add_files_writes | auto].
Qed.

Lemma exists_walk (source_path : string) :
  exists_ w source_path = false -> walk w source_path = [].
Proof.
  unfold exists_, walk. now destruct (resolve w source_path).
Qed.

Lemma add_sources_writes (todo : list string) :
  writes_within (add_sources w source_paths todo) (expected_files w todo).
Proof.
  induction todo as [|source_path todo IH]; [now apply writes_within_nothing|].
  cbn [add_sources expected_files flat_map].
  apply writes_within_bind; [|auto].
  destruct (exists_ w source_path) eqn:Hex; cbn [negb].
  - rewrite <- (app_nil_r (walk_files (walk w source_path))).
    apply writes_within_bind; [apply add_walk_writes|].
    intros _ _. now apply writes_within_nothing.
  - rewrite exists_walk by assumption. now apply writes_within_nothing.
Qed.

Lemma create_archive_writes (full_zip_path : string) :
  writes_within (create_archive w full_zip_path source_paths)
    (expected_files w source_paths).
Proof.
  unfold create_archive.
  change (expected_files w source_paths)
    with ([] ++ expected_files w source_paths)%list.
  apply writes_within_bind.
  { apply writes_within_nothing. now rewrite trace_call. }
  intros _ _. rewrite <- (app_nil_r (expected_files w source_paths)).
  apply writes_within_bind; [|intros; now apply writes_within_nothing].
  destruct (add_sources_writes source_paths) as [[rest Hp] Hc].
  unfold writes_within.
  rewrite trace_try_finally, result_try_finally, written_app, trace_call.
  cbn [written archive_entries flat_map map app]. rewrite app_nil_r. split.
  - now exists rest.
  - intros a Ha. destruct (result (call _ _)); [eauto | discriminate].
Qed.

End ArchiveContents.

(** X4.  The files handed to the archive are, in order, the regular
    files met by walking each source path in the order given.  While
    the construction runs they form an initial segment of that list, so
    nothing is written out of turn and the construction stops at the
    first failure; when it completes, every such file has been written,
    once for each time a walk meets it. *)
Theorem archive_holds_the_walked_files
    (w : World) (full_zip_path : string) (source_paths : list string) :
  (exists rest,
     expected_files w source_paths =
     (written (trace (create_archive w full_zip_path source_paths)) ++ rest)%list)
  /\ (result (create_archive w full_zip_path source_paths) = Ok tt ->
      written (trace (create_archive w full_zip_path source_paths))
      = expected_files w source_paths).
Proof.
  destruct (create_archive_writes w source_paths full_zip_path) as [Hp Hc].
  split; [exact Hp | apply Hc].
Qed.

Lemma archive_holds_the_walked_files_witness :
  written (trace (create_archive Sample.quiet "telegram_package_temp/full_build_env_7.zip"
                    Sample.sources))
  = ["/home/ci/.pub-cache/README"; "/home/ci/.pub-cache/hosted/pkg.yaml"].
Proof.
  apply (proj2 (archive_holds_the_walked_files Sample.quiet
                  "telegram_package_temp/full_build_env_7.zip" Sample.sources)).
  reflexivity.
Defined.

(* ================================================================= *)
(** ** Upload handles and answers *)

Section Uploads.

Variable w : World.
Variable g : Globals.

(** One call: nothing is opened; or the file is opened and closed; or
    opening raises and the call does not return. *)
Lemma send_document_handles (file_path caption : string) :
  let m := send_telegram_document w g file_path caption in
  (opens (trace m) = [] /\ closes (trace m) = [])
  \/ (opens (trace m) = [file_path] /\ closes (trace m) = [file_path])
  \/ (opens (trace m) = [file_path] /\ closes (trace m) = []
      /\ exists e, result m = Fail (Raised e)).
Proof.
  unfold send_telegram_document.
  destruct (part_exists w file_path); simpl; [|now left].
  destruct (open_rb w file_path) as [[]|e]; simpl.
  - right. left.
    destruct (post_document w _ (chat_id g) caption file_path) as [[|]| |]; simpl; auto.
  - right. right. eauto.
Qed.

Lemma upload_loop_handles (n : nat) (files : list string) :
  forall i,
    let m := upload_loop w g n i files in
    incl (opens (trace m)) files
    /\ ((closes (trace m) = opens (trace m))
        \/ (exists file_path e,
              opens (trace m) = (closes (trace m) ++ [file_path])%list
              /\ result m = Fail (Raised e))).
Proof.
  induction files as [|p files IH]; intros i; cbn zeta.
  - split; [apply incl_nil_l | now left].
  - cbn [upload_loop]. rewrite trace_bind, result_bind, opens_app, closes_app.
    destruct (send_document_handles p (caption_text g i n p))
      as [[Ho Hc]|[[Ho Hc]|[Ho [Hc [e He]]]]]; cbv zeta in *; rewrite Ho, Hc.
    + destruct (result (send_telegram_document w g p _)) as [[|]|s].
      * destruct (IH (S i)) as [Hin Hbal]. split.
        { intros x Hx. right. now apply Hin. }
        exact Hbal.
      * split; [apply incl_nil_l | now left].
      * split; [apply incl_nil_l | now left].
    + destruct (result (send_telegram_document w g p _)) as [[|]|s].
      * destruct (IH (S i)) as [Hin Hbal]. split.
        { intros x [<-|Hx]; [now left | right; now apply Hin]. }
        destruct Hbal as [Hbal|[q [e [Hq He]]]].
        { left. cbn [app]. now rewrite Hbal. }
        right. exists q, e. cbn [app]. now rewrite Hq.
      * split; [|now left]. intros x [<-|[]]. now left.
      * split; [|now left]. intros x [<-|[]]. now left.
    + rewrite He. split.
      * intros x [<-|[]]. now left.
      * right. exists p, e. auto.
Qed.

End Uploads.

(** X5.  Upload handles are released.  The upload loop opens only files
    of the part list; whenever it finishes, with every upload accepted
    or after a failed one, every file it opened has been closed, in the
    same order; the only handle it can leave behind is that of a file
    whose opening raised, and then the loop does not finish. *)
Theorem upload_handles_released (w : World) (g : Globals) (parts : list string) :
  let t := trace (upload_parts w g parts) in
  incl (opens t) parts
  /\ (forall b, result (upload_parts w g parts) = Ok b -> closes t = opens t)
  /\ (closes t <> opens t ->
      exists file_path e,
        opens t = (closes t ++ [file_path])%list
        /\ result (upload_parts w g parts) = Fail (Raised e)).
Proof.
  intros t. subst t. unfold upload_parts.
  destruct (upload_loop_handles w g (length parts) parts 0) as [Hin Hbal].
  cbv zeta in *. split; [assumption|]. split.
  - intros b Hb. destruct Hbal as [H|[q [e [_ He]]]]; [assumption | congruence].
  - intros Hne. destruct Hbal as [H|H]; [contradiction | assumption].
Qed.

Lemma upload_handles_released_witness :
  closes (trace (upload_parts Sample.rejecting Sample.globals
                   ["tmp/a_part.z01"; "tmp/a_part.zip"]))
  = opens (trace (upload_parts Sample.rejecting Sample.globals
                    ["tmp/a_part.z01"; "tmp/a_part.zip"])).
Proof.
  apply (proj1 (proj2 (upload_handles_released Sample.rejecting Sample.globals
                         ["tmp/a_part.z01"; "tmp/a_part.zip"])) false).
  reflexivity.
Defined.

(** X6.  [send_telegram_document] returns true exactly when the file
    exists, it can be opened and the endpoint answers with [ok] true.
    For a file that does not exist it returns false without opening
    anything and without a request.  It never ends the process.  It
    fails to return in two cases only: opening the file raises, before
    any request; or the request is answered with a 2xx status and a JSON
    body that is not an object, and then [AttributeError] escapes after
    the request, the handle having been closed. *)
Theorem document_accepted_iff (w : World) (g : Globals) (file_path caption : string) :
  let m := send_telegram_document w g file_path caption in
  (result m = Ok true <->
   part_exists w file_path = true
   /\ open_rb w file_path = Py.Returns tt
   /\ post_document w (document_url g) (chat_id g) caption file_path = DocReply true)
  /\ (part_exists w file_path = false ->
      m = ([EvPrint (MsgFileNotFound file_path)], Ok false))
  /\ (forall s, result m = Fail s ->
      (exists e, s = Raised e /\ open_rb w file_path = Py.Raises e
                 /\ documents (trace m) = [])
      \/ (s = Raised Py.AttributeError
          /\ open_rb w file_path = Py.Returns tt
          /\ post_document w (document_url g) (chat_id g) caption file_path
             = DocNotAnObject
          /\ documents (trace m) = [(file_path, caption)]
          /\ closes (trace m) = [file_path])).
Proof.
  unfold send_telegram_document, document_url.
  destruct (part_exists w file_path); simpl.
  2:{ repeat split; try discriminate; try tauto. intros [H _]. discriminate. }
  destruct (open_rb w file_path) as [[]|e]; simpl.
  - destruct (post_document w _ (chat_id g) caption file_path) as [[|]| |] eqn:Hpost;
      simpl; repeat split; try discriminate; try tauto;
      try (intros [_ [_ H]]; discriminate).
    intros s [= <-]. right. repeat split.
  - repeat split; try discriminate.
    + intros [_ [H _]]. discriminate.
    + intros s [= <-]. left. eauto.
Qed.

Lemma document_accepted_iff_witness :
  result (send_telegram_document Sample.quiet Sample.globals
            "telegram_package_temp/full_build_env_7.zip"
            "Build Env (7) Part 1/1: full_build_env_7.zip") = Ok true.
Proof.
  apply (proj2 (proj1 (document_accepted_iff Sample.quiet Sample.globals
                         "telegram_package_temp/full_build_env_7.zip"
                         "Build Env (7) Part 1/1: full_build_env_7.zip"))).
  repeat split; reflexivity.
Defined.

(* ================================================================= *)
(** ** Every way a run can end *)

Section RunCases.

Variable w : World.

Lemma after_packaging_nothing_eq :
  after_packaging w [] =
  (trace (send_telegram_message w (read_globals w) MSG_PACKAGING_FAILED), Fail (SystemExit 1)).
Proof.
  unfold after_packaging.
  destruct (delivered w (read_globals w) MSG_PACKAGING_FAILED) eqn:E.
  - rewrite send_message_delivered by assumption. reflexivity.
  - rewrite send_message_failed by assumption. reflexivity.
Qed.

Lemma upload_and_cleanup_upload_raises (parts : list string) (e : Py.exn) :
  delivered w (read_globals w) MSG_UPLOADING = true ->
  result (upload_parts w (read_globals w) parts) = Fail (Raised e) ->
  upload_and_cleanup w (read_globals w) parts =
  ((trace (send_telegram_message w (read_globals w) MSG_UPLOADING)
      ++ trace (upload_parts w (read_globals w) parts))%list, Fail (Raised e)).
Proof.
  intros Hup Hres. unfold upload_and_cleanup.
  rewrite send_message_delivered by assumption.
  rewrite (surjective_M (upload_parts w (read_globals w) parts)), Hres. reflexivity.
Qed.

Lemma run_cases : exists how, run_ended w how.
Proof.
  destruct (credentials_set w) eqn:Hcred.
  2:{ exists NoCredentials. split; [assumption|].
      now apply script_without_credentials. }
  destruct (delivered w (read_globals w) MSG_STARTING) eqn:Hstart.
  2:{ exists StartLost. repeat split; try assumption.
      rewrite script_with_credentials by assumption. unfold main_execution.
      rewrite (bind_Fail _ _ (SystemExit 1));
        rewrite send_message_failed by assumption; reflexivity. }
  destruct (github_workspace (read_globals w)) as [workspace|] eqn:Hws.
  2:{ exists NoWorkspace. repeat split; try assumption.
      rewrite script_with_credentials by assumption. unfold main_execution.
      rewrite Hws, send_message_delivered by assumption. reflexivity. }
  destruct (script_steps w workspace Hcred Hstart Hws) as [Ht Hr].
 
  assert (Hrp : reached_packaging w workspace) by (repeat split; assumption).
  destruct (result (packaging w workspace)) as [[|p parts]|[e|c]] eqn:Hpkg.
  - exists (NothingToUpload workspace). repeat split; try assumption.
    rewrite (surjective_M (script w)), Ht, Hr, after_packaging_nothing_eq.
    reflexivity.
  - cbn [after_packaging] in Ht, Hr.
    destruct (delivered w (read_globals w) MSG_UPLOADING) eqn:Hup.
    2:{ exists (UploadNoticeLost workspace (p :: parts)).
        repeat split; try assumption; try discriminate.
        rewrite (surjective_M (script w)), Ht, Hr.
        rewrite upload_and_cleanup_undelivered by assumption.
        rewrite (send_message_failed w (read_globals w) MSG_UPLOADING Hup). reflexivity. }
    assert (Hru : reached_uploads w workspace (p :: parts))
      by (repeat split; try assumption; discriminate).
    destruct (result (upload_parts w (read_globals w) (p :: parts))) as [b|[e|c]] eqn:Hres.
    + destruct (upload_and_cleanup_trace w (read_globals w) (p :: parts) b Hup Hres) as [Ht' Hr'].
      fold (summary_text b) in Ht', Hr'.
      destruct (delivered w (read_globals w) (summary_text b)) eqn:Hsum.
      * exists (CleanedUp workspace (p :: parts) b).
        split; [exact Hru|]. repeat split; try assumption.
        rewrite (surjective_M (script w)), Ht, Hr, Ht', Hr'.
        now rewrite (send_message_delivered w (read_globals w) (summary_text b) Hsum).
      * exists (SummaryLost workspace (p :: parts) b).
        split; [exact Hru|]. repeat split; try assumption.
        rewrite (surjective_M (script w)), Ht, Hr, Ht', Hr'.
        rewrite (send_message_failed w (read_globals w) (summary_text b) Hsum).
        cbn [result snd trace fst]. now rewrite app_nil_r.
    + exists (UploadRaised workspace (p :: parts) e).
        split; [exact Hru|]. repeat split; try assumption.
      rewrite (surjective_M (script w)), Ht, Hr.
      now rewrite (upload_and_cleanup_upload_raises (p :: parts) e).
    + destruct (upload_loop_quiet w (read_globals w) (length (p :: parts)) (p :: parts) 0)
        as [_ [_ Hro]].
      now destruct (Hro c).
  - exists (PackagingRaised workspace e). repeat split; try assumption.
    rewrite (surjective_M (script w)), Ht, Hr. now rewrite app_nil_r.
  - now destruct (package_raises_only w temp_packaging_dir
                    ("full_build_env_" ++ Py.str (run_number (read_globals w)))
                    (source_dirs w workspace) MAX_TELEGRAM_CHUNK_BYTES c).
Qed.

End RunCases.

(* ================================================================= *)
(** ** What the pieces of a run show *)

Lemma send_message_views (w : World) (g : Globals) (text : string) :
  let t := trace (send_telegram_message w g text) in
  messages t = [text] /\ documents t = [] /\ cleanup_reached t = false.
Proof.
  cbv zeta.
  destruct (delivered w g text) eqn:E;
    [rewrite send_message_delivered | rewrite send_message_failed]; auto.
Qed.

Lemma packaging_views (w : World) (workspace : string) :
  let t := trace (packaging w workspace) in
  messages t = [] /\ documents t = [] /\ cleanup_reached t = false.
Proof.
  cbv zeta. unfold packaging.
  pose proof (package_events w temp_packaging_dir
                ("full_build_env_" ++ Py.str (run_number (read_globals w)))
                (source_dirs w workspace) MAX_TELEGRAM_CHUNK_BYTES) as H.
  induction H as [|e t He _ [IH1 [IH2 IH3]]]; [repeat split|].
  destruct e; simpl in *; try contradiction; auto.
  destruct He as [_ ->]. auto.
Qed.

Lemma upload_views (w : World) (g : Globals) (parts : list string) :
  let t := trace (upload_parts w g parts) in
  messages t = [] /\ cleanup_reached t = false.
Proof.
  cbv zeta. destruct (upload_loop_quiet w g (length parts) parts 0) as [H1 [H2 _]].
  now split.
Qed.

Lemma cleanup_views (w : World) :
  let t := trace (cleanup w) in
  messages t = [] /\ documents t = [] /\ cleanup_reached t = true.
Proof.
  cbv zeta. rewrite cleanup_trace. destruct (spawn w _ None); repeat split.
Qed.

(** Rewriting the views of a run whose trace is a concatenation of
    pieces. *)
Ltac run_views :=
  cbn [trace fst result snd];
  rewrite ?messages_app, ?documents_app, ?cleanup_reached_app;
  repeat match goal with
         | |- context [messages (trace (send_telegram_message ?w ?g ?x))] =>
             rewrite (proj1 (send_message_views w g x))
         | |- context [documents (trace (send_telegram_message ?w ?g ?x))] =>
             rewrite (proj1 (proj2 (send_message_views w g x)))
         | |- context [cleanup_reached (trace (send_telegram_message ?w ?g ?x))] =>
             rewrite (proj2 (proj2 (send_message_views w g x)))
         | |- context [messages (trace (packaging ?w ?x))] =>
             rewrite (proj1 (packaging_views w x))
         | |- context [documents (trace (packaging ?w ?x))] =>
             rewrite (proj1 (proj2 (packaging_views w x)))
         | |- context [cleanup_reached (trace (packaging ?w ?x))] =>
             rewrite (proj2 (proj2 (packaging_views w x)))
         | |- context [messages (trace (upload_parts ?w ?g ?x))] =>
             rewrite (proj1 (upload_views w g x))
         | |- context [cleanup_reached (trace (upload_parts ?w ?g ?x))] =>
             rewrite (proj2 (upload_views w g x))
         | |- context [messages (trace (cleanup ?w))] =>
             rewrite (proj1 (cleanup_views w))
         | |- context [documents (trace (cleanup ?w))] =>
             rewrite (proj1 (proj2 (cleanup_views w)))
         | |- context [cleanup_reached (trace (cleanup ?w))] =>
             rewrite (proj2 (proj2 (cleanup_views w)))
         end;
  cbn [app orb].

(** Taking a case of [run_ended] apart. *)
Ltac open_case H :=
  cbv beta iota zeta delta [run_ended reached_uploads reached_packaging] in H;
  repeat match goal with
         | F : _ /\ _ |- _ => destruct F
         end.

Lemma lost_message_ends (w : World) (g : Globals) (text : string) :
  delivered w g text = false ->
  ends_with_lost_message (trace (send_telegram_message w g text)) text.
Proof.
  intros H. rewrite send_message_failed by assumption.
  now exists [], (TELEGRAM_API_BASE_URL ++ Py.str (telegram_token g) ++ "/sendMessage"),
    (chat_id g).
Qed.

Lemma ends_with_lost_message_app (t0 t : list event) (text : string) :
  ends_with_lost_message t text -> ends_with_lost_message (t0 ++ t) text.
Proof.
  intros [before [url [chat ->]]]. exists (t0 ++ before)%list, url, chat.
  now rewrite app_assoc.
Qed.

(** X7.  A status message that cannot be delivered is the last thing
    the script does: if a message of the run was not delivered, the
    trace ends with the request for it and the report of the error, the
    process leaves by [exit(1)], and nothing is uploaded or cleaned up
    afterwards. *)
Theorem lost_message_is_the_end (w : World) (text : string) :
  In text (messages (trace (script w))) ->
  delivered w (read_globals w) text = false ->
  result (script w) = Fail (SystemExit 1)
  /\ ends_with_lost_message (trace (script w)) text
  /\ cleanup_reached (trace (script w)) = false.
Proof.
  intros Hin Hlost.
  destruct (run_cases w) as [how H]. destruct how; open_case H;
    match goal with E : script w = _ |- _ => rewrite E in * end;
    revert Hin; run_views; cbn [messages flat_map app In]; intros Hin;
    repeat match goal with
           | Hin : _ \/ _ |- _ => destruct Hin as [<-|Hin]
           | Hin : False |- _ => contradiction
           end;
    try congruence.
  - split; [reflexivity|]. split; [|reflexivity]. now apply lost_message_ends.
  - split; [reflexivity|]. split; [|reflexivity].
    do 2 apply ends_with_lost_message_app. now apply lost_message_ends.
  - split; [reflexivity|]. split; [|reflexivity].
    do 2 apply ends_with_lost_message_app. now apply lost_message_ends.
  - split; [reflexivity|]. split; [|reflexivity].
    do 4 apply ends_with_lost_message_app. now apply lost_message_ends.
Qed.

Lemma lost_message_is_the_end_witness :
  result (script Sample.mute_at_end) = Fail (SystemExit 1)
  /\ ends_with_lost_message (trace (script Sample.mute_at_end)) MSG_SUCCESS
  /\ cleanup_reached (trace (script Sample.mute_at_end)) = false.
Proof.
  apply (lost_message_is_the_end Sample.mute_at_end MSG_SUCCESS).
  - vm_compute. auto.
  - reflexivity.
Defined.

Lemma credentials_missing_iff (w : World) :
  credentials_set w = false <->
  (environ w "TELEGRAM_BOT_TOKEN" = None \/ environ w "TELEGRAM_BOT_TOKEN" = Some ""
   \/ environ w "TELEGRAM_CHAT_ID" = None \/ environ w "TELEGRAM_CHAT_ID" = Some "").
Proof.
  unfold credentials_set, read_globals, Py.truthy. cbn [telegram_token chat_id].
  destruct (environ w "TELEGRAM_BOT_TOKEN") as [[|c token]|];
    destruct (environ w "TELEGRAM_CHAT_ID") as [[|c' chat]|]; cbn;
    (split; [intros H; try discriminate H; auto 6 | intros [H|[H|[H|H]]]; congruence]).
Qed.

(** Closing a goal with a hypothesis that equates two different texts. *)
Ltac distinct_texts H :=
  unfold MSG_STARTING, MSG_PACKAGING_FAILED, MSG_UPLOADING, MSG_SUCCESS, MSG_WARNING in H;
  discriminate H.

(** X8.  Without credentials nothing happens.  When the bot token or the
    chat identifier is unset or empty, the script prints one error line
    and leaves with status 1: no request, no directory, no archive, no
    sub-process.  In every other run the start notice is the first thing
    requested, so a run without any status message is a run without
    credentials. *)
Theorem no_credentials_no_action (w : World) :
  let missing :=
    environ w "TELEGRAM_BOT_TOKEN" = None \/ environ w "TELEGRAM_BOT_TOKEN" = Some ""
    \/ environ w "TELEGRAM_CHAT_ID" = None \/ environ w "TELEGRAM_CHAT_ID" = Some "" in
  (missing -> script w = ([EvPrint MsgCredentialsMissing], Fail (SystemExit 1)))
  /\ (~ missing ->
      exists rest,
        trace (script w) =
        EvPostMessage (message_url (read_globals w)) (environ w "TELEGRAM_CHAT_ID")
          MSG_STARTING :: rest)
  /\ (messages (trace (script w)) = [] -> missing).
Proof.
  intros missing. subst missing. split; [|split].
  - intros H. apply script_without_credentials. now apply credentials_missing_iff.
  - intros H.
    assert (Hcred : credentials_set w = true).
    { destruct (credentials_set w) eqn:E; [reflexivity|].
      now apply credentials_missing_iff in E. }
    rewrite script_with_credentials by assumption. unfold main_execution.
    rewrite trace_bind.
    destruct (delivered w (read_globals w) MSG_STARTING) eqn:E;
      [rewrite send_message_delivered by assumption
      |rewrite send_message_failed by assumption]; cbn [trace fst app]; eauto.
  - intros Hm. apply credentials_missing_iff.
    destruct (run_cases w) as [how H]. destruct how; open_case H;
      try assumption;
      match goal with E : script w = _ |- _ => rewrite E in Hm end;
      revert Hm; run_views; discriminate.
Qed.

Lemma no_credentials_no_action_witness :
  script Faulty.empty_token = ([EvPrint MsgCredentialsMissing], Fail (SystemExit 1)).
Proof.
  apply (proj1 (no_credentials_no_action Faulty.empty_token)).
  right. left. reflexivity.
Defined.

(** X9.  The status messages of a run follow one protocol: none; the
    start notice; the start notice and the failure notice; the start and
    upload notices; or these two and one summary, success or warning.
    The failure notice is sent exactly in the runs that reach the call
    of [package_and_split_files] and get the empty list from it. *)
Theorem message_protocol (w : World) :
  let sent := messages (trace (script w)) in
  (sent = [] \/ sent = [MSG_STARTING]
   \/ sent = [MSG_STARTING; MSG_PACKAGING_FAILED]
   \/ sent = [MSG_STARTING; MSG_UPLOADING]
   \/ sent = [MSG_STARTING; MSG_UPLOADING; MSG_SUCCESS]
   \/ sent = [MSG_STARTING; MSG_UPLOADING; MSG_WARNING])
  /\ (In MSG_PACKAGING_FAILED sent <->
      exists workspace,
        reached_packaging w workspace /\ result (packaging w workspace) = Ok []).
Proof.
  intros sent. subst sent.
  destruct (run_cases w) as [how H]. destruct how; open_case H;
    match goal with E : script w = _ |- _ => rewrite E; clear E end;
    run_views; cbn [messages flat_map app].
  all: split.
  all: try (destruct all_uploads_successful; cbn [summary_text]).
  all: try (now left).
  all: try (right; now left).
  all: try (right; right; now left).
  all: try (right; right; right; now left).
  all: try (right; right; right; right; now left).
  all: try (do 5 right; reflexivity).
  all: split.
  all: try (intros [ws [[Hc [Hs Hw]] Hp]]; exfalso; congruence).
  all: try (cbn [In]; intros Hin;
            repeat (destruct Hin as [Hin|Hin]; [try distinct_texts Hin|]);
            try contradiction).
  - exists workspace. unfold reached_packaging. auto.
  - cbn [In]. right. now left.
Qed.

Lemma message_protocol_witness :
  exists workspace,
    reached_packaging Sample.split_fails workspace
    /\ result (packaging Sample.split_fails workspace) = Ok [].
Proof.
  apply (proj1 (proj2 (message_protocol Sample.split_fails))).
  vm_compute. auto.
Defined.


(** A loop that ends with true has sent every file, and every request
    was answered with [ok] true. *)
Lemma upload_loop_accepted (w : World) (g : Globals) (n : nat) (files : list string) :
  forall i,
    result (upload_loop w g n i files) = Ok true ->
    map fst (documents (trace (upload_loop w g n i files))) = files
    /\ forall file_path caption,
         In (file_path, caption) (documents (trace (upload_loop w g n i files))) ->
         post_document w (document_url g) (chat_id g) caption file_path = DocReply true.
Proof.
  induction files as [|p files IH]; intros i Hres; [split; [reflexivity | intros ? ? []]|].
  cbn [upload_loop] in *. rewrite result_bind in Hres. rewrite trace_bind, documents_app.
  destruct (result (send_telegram_document w g p (caption_text g i n p)))
    as [[|]|s] eqn:Hsend; try discriminate.
  rewrite (send_document_true w g p _ Hsend). cbn [app map fst].
  destruct (IH (S i) Hres) as [Hfiles Hok]. split; [now rewrite Hfiles|].
  intros file_path caption [[= <- <-]|Hin]; [|now apply Hok].
  revert Hsend. unfold send_telegram_document, document_url.
  destruct (part_exists w p); simpl; [|discriminate].
  destruct (open_rb w p) as [[]|e]; simpl; [|discriminate].
  destruct (post_document w _ (chat_id g) _ p) as [[|]| |]; simpl;
    intros; congruence.
Qed.

Lemma summary_text_inj (a b : bool) : summary_text a = summary_text b -> a = b.
Proof. destruct a, b; intros H; try reflexivity; distinct_texts H. Qed.

(** The runs that reach the upload loop and whose loop ends with [b]. *)
Lemma summary_sent_iff (w : World) (b : bool) :
  In (summary_text b) (messages (trace (script w))) <->
  exists workspace parts,
    reached_uploads w workspace parts
    /\ result (upload_parts w (read_globals w) parts) = Ok b.
Proof.
  destruct (run_cases w) as [how H]. destruct how; open_case H;
    match goal with E : script w = _ |- _ => rewrite E; clear E end;
    run_views; cbn [messages flat_map app In]; split.
  all: try (intros [ws [ps [[[Hc [Hs Hw]] [Hp [Hn Hd]]] Hu]]]; exfalso; congruence).
  all: try match goal with
           | |- False -> _ => intros []
           | |- _ \/ _ -> _ =>
               intros Hin;
               repeat (destruct Hin as [Hin|Hin];
                       [try (destruct b; distinct_texts Hin)|]);
               try contradiction
           end.
  - apply summary_text_inj in Hin. subst.
    exists workspace, parts. unfold reached_uploads, reached_packaging. auto 10.
  - intros [ws [ps [[[Hc [Hs Hw]] [Hp [Hn Hd]]] Hu]]].
    assert (all_uploads_successful = b) by congruence. subst.
    right. right. now left.
  - apply summary_text_inj in Hin. subst.
    exists workspace, parts. unfold reached_uploads, reached_packaging. auto 10.
  - intros [ws [ps [[[Hc [Hs Hw]] [Hp [Hn Hd]]] Hu]]].
    assert (all_uploads_successful = b) by congruence. subst.
    right. right. now left.
Qed.


(** The documents of a run are those of its upload loop. *)
Lemma documents_of_the_run (w : World) (workspace : string) (parts : list string)
    (b : bool) :
  reached_uploads w workspace parts ->
  result (upload_parts w (read_globals w) parts) = Ok b ->
  documents (trace (script w)) = documents (trace (upload_parts w (read_globals w) parts)).
Proof.
  intros [[Hc [Hs Hw]] [Hp [Hn Hd]]] Hu.
  destruct (run_cases w) as [how H]. destruct how; open_case H;
    try (exfalso; congruence).
  all: match goal with E : script _ = _ |- _ => rewrite E; clear E end;
    run_views; rewrite ?app_nil_r;
    replace parts0 with parts by congruence; reflexivity.
Qed.

(** X10.  The summary tells what happened to the uploads.  The success
    message is sent exactly in the runs whose upload loop ended with
    every upload returning true, the warning exactly in those where one
    returned false.  When the success message is sent, the documents
    requested in the run are the parts of the list, in order, and the
    endpoint answered [ok] true to each of them. *)
Theorem summary_matches_uploads (w : World) :
  let g := read_globals w in
  let sent := messages (trace (script w)) in
  (In MSG_SUCCESS sent <->
   exists workspace parts,
     reached_uploads w workspace parts /\ result (upload_parts w g parts) = Ok true)
  /\ (In MSG_WARNING sent <->
      exists workspace parts,
        reached_uploads w workspace parts /\ result (upload_parts w g parts) = Ok false)
  /\ (In MSG_SUCCESS sent ->
      exists workspace parts,
        result (packaging w workspace) = Ok parts
        /\ map fst (documents (trace (script w))) = parts
        /\ forall file_path caption,
             In (file_path, caption) (documents (trace (script w))) ->
             post_document w (document_url g) (chat_id g) caption file_path
             = DocReply true).
Proof.
  intros g sent. subst g sent. split; [|split].
  - apply (summary_sent_iff w true).
  - apply (summary_sent_iff w false).
  - intros Hin. apply (summary_sent_iff w true) in Hin.
    destruct Hin as [workspace [parts [Hr Hu]]].
    exists workspace, parts. rewrite (documents_of_the_run w workspace parts true Hr Hu).
    destruct (upload_loop_accepted w (read_globals w) (length parts) parts 0 Hu)
      as [Hfiles Hok].
    split; [apply Hr|]. split; [exact Hfiles | exact Hok].
Qed.

Lemma summary_matches_uploads_witness :
  exists workspace parts,
    result (packaging Sample.quiet workspace) = Ok parts
    /\ map fst (documents (trace (script Sample.quiet))) = parts
    /\ forall file_path caption,
         In (file_path, caption) (documents (trace (script Sample.quiet))) ->
         post_document Sample.quiet (document_url (read_globals Sample.quiet))
           (chat_id (read_globals Sample.quiet)) caption file_path
         = DocReply true.
Proof.
  apply (proj2 (proj2 (summary_matches_uploads Sample.quiet))).
  vm_compute. auto.
Defined.

(** X11.  Exit status 0 means that the whole pipeline ran.  The script
    ends with status 0 exactly when it reached the upload loop, the loop
    ended (with every upload accepted or after a failed one), the
    summary was delivered and the [rm] command could be started.  The
    [rm -rf] of the temporary directory is run only after a delivered
    summary, as the third status message of the run; every run with
    status 0 has run it. *)
Theorem status_zero_iff_pipeline_ran (w : World) :
  let g := read_globals w in
  (exit_status (result (script w)) = 0%Z <->
   exists workspace parts b status,
     reached_uploads w workspace parts
     /\ result (upload_parts w g parts) = Ok b
     /\ delivered w g (summary_text b) = true
     /\ spawn w ["rm"; "-rf"; temp_packaging_dir] None = Some status)
  /\ (cleanup_reached (trace (script w)) = true ->
      exists b,
        messages (trace (script w)) = [MSG_STARTING; MSG_UPLOADING; summary_text b]
        /\ delivered w g MSG_STARTING = true
        /\ delivered w g MSG_UPLOADING = true
        /\ delivered w g (summary_text b) = true)
  /\ (exit_status (result (script w)) = 0%Z ->
      cleanup_reached (trace (script w)) = true).
Proof.
  intros g. subst g.
  destruct (run_cases w) as [how H]. destruct how; open_case H;
    match goal with E : script w = _ |- _ => rewrite E end;
    run_views; cbn [exit_status cleanup_reached existsb is_cleanup orb].
  all: repeat split; try discriminate; try reflexivity;
    try (intros [ws [ps [b' [st [Hr [Hu [Hd Hs]]]]]]];
         unfold reached_uploads, reached_packaging in Hr;
         destruct Hr as [[Hc [Hs' Hw]] [Hp [Hn Hd']]]; exfalso; congruence).
  - rewrite cleanup_result. destruct (spawn w _ None) as [status|] eqn:Hrm;
      [|discriminate].
    intros _. exists workspace, parts, all_uploads_successful, status.
    unfold reached_uploads, reached_packaging. auto 10.
  - intros [ws [ps [b' [st [Hr [Hu [Hd Hs]]]]]]]. now rewrite cleanup_result, Hs.
  - intros _. exists all_uploads_successful. auto.
Qed.

Lemma status_zero_iff_pipeline_ran_witness :
  cleanup_reached (trace (script Sample.quiet)) = true.
Proof.
  apply (proj2 (proj2 (status_zero_iff_pipeline_ran Sample.quiet))).
  reflexivity.
Defined.


(** X12.  An exception that escapes [package_and_split_files] is fatal
    and silent: the script ends with that exception uncaught, with exit
    status 1, after the start notice alone; the failure notice is not
    sent, nothing is uploaded and the temporary directory is not
    removed. *)
Theorem packaging_exception_is_silent (w : World) (workspace : string) (e : Py.exn) :
  reached_packaging w workspace ->
  result (packaging w workspace) = Fail (Raised e) ->
  result (script w) = Fail (Raised e)
  /\ exit_status (result (script w)) = 1%Z
  /\ messages (trace (script w)) = [MSG_STARTING]
  /\ documents (trace (script w)) = []
  /\ cleanup_reached (trace (script w)) = false.
Proof.
  intros [Hcred [Hstart Hws]] Hpkg.
  destruct (script_steps w workspace Hcred Hstart Hws) as [Ht Hr].
  rewrite Ht, Hr, Hpkg. run_views. cbn [messages documents cleanup_reached flat_map existsb].
  rewrite ?app_nil_r. repeat split; reflexivity.
Qed.

Lemma packaging_exception_is_silent_witness :
  result (script Faulty.no_zip) = Fail (Raised Py.OSError)
  /\ exit_status (result (script Faulty.no_zip)) = 1%Z
  /\ messages (trace (script Faulty.no_zip)) = [MSG_STARTING]
  /\ documents (trace (script Faulty.no_zip)) = []
  /\ cleanup_reached (trace (script Faulty.no_zip)) = false.
Proof.
  apply (packaging_exception_is_silent Faulty.no_zip "/work" Py.OSError).
  - repeat split; reflexivity.
  - reflexivity.
Defined.


(** X13.  The workspace variable is not checked with the credentials.
    When the credentials are set but [GITHUB_WORKSPACE] is not, the
    script sends the start notice and then, if that was delivered, stops
    at line 129 with an uncaught [TypeError]: exit status 1, no temporary
    directory, no archive, no further message. *)
Theorem unset_workspace_is_fatal (w : World) :
  credentials_set w = true ->
  environ w "GITHUB_WORKSPACE" = None ->
  trace (script w) = trace (send_telegram_message w (read_globals w) MSG_STARTING)
  /\ exit_status (result (script w)) = 1%Z
  /\ (delivered w (read_globals w) MSG_STARTING = true ->
      result (script w) = Fail (Raised Py.TypeError)).
Proof.
  intros Hcred Hws.
  destruct (run_cases w) as [how H]. destruct how; open_case H;
    match goal with E : script w = _ |- _ => rewrite E end;
    cbn [trace fst result snd exit_status];
    try (unfold read_globals in *; cbn [github_workspace] in *; congruence).
  - repeat split. congruence.
  - repeat split.
Qed.

Lemma unset_workspace_is_fatal_witness :
  trace (script Faulty.no_workspace)
  = trace (send_telegram_message Faulty.no_workspace
             (read_globals Faulty.no_workspace) MSG_STARTING)
  /\ exit_status (result (script Faulty.no_workspace)) = 1%Z
  /\ (delivered Faulty.no_workspace (read_globals Faulty.no_workspace) MSG_STARTING = true ->
      result (script Faulty.no_workspace) = Fail (Raised Py.TypeError)).
Proof.
  apply (unset_workspace_is_fatal Faulty.no_workspace); reflexivity.
Defined.


(* ================================================================= *)
(** ** Where the requests go *)

Section Requests.

Variable w : World.

Lemma send_message_configured (text : string) :
  Forall (configured_request w)
    (trace (send_telegram_message w (read_globals w) text)).
Proof.
  destruct (delivered w (read_globals w) text) eqn:E;
    [rewrite send_message_delivered | rewrite send_message_failed];
    try assumption; repeat constructor.
Qed.

Lemma send_document_configured (file_path caption : string) :
  Forall (configured_request w)
    (trace (send_telegram_document w (read_globals w) file_path caption)).
Proof.
  unfold send_telegram_document.
  destruct (part_exists w file_path); simpl; [|repeat constructor].
  destruct (open_rb w file_path) as [[]|e]; simpl; [|repeat constructor].
  destruct (post_document w _ _ caption file_path) as [[|]| |]; simpl;
    repeat constructor.
Qed.

Lemma upload_loop_configured (n : nat) (files : list string) :
  forall i, Forall (configured_request w) (trace (upload_loop w (read_globals w) n i files)).
Proof.
  induction files as [|p files IH]; intros i; [constructor|].
  cbn [upload_loop]. apply Forall_trace_bind; [apply send_document_configured|].
  intros [|] _; [apply IH | constructor].
Qed.

Lemma packaging_configured (workspace : string) :
  Forall (configured_request w) (trace (packaging w workspace)).
Proof.
  unfold packaging. eapply Forall_impl; [|apply package_events].
  intros [] H; simpl in *; solve [exact I | contradiction].
Qed.

Lemma cleanup_configured : Forall (configured_request w) (trace (cleanup w)).
Proof.
  rewrite cleanup_trace. destruct (spawn w _ None); repeat constructor.
Qed.

End Requests.

(** X14.  Every HTTP request of a run goes to the configured bot and
    chat: status messages to [<base><token>/sendMessage], documents to
    [<base><token>/sendDocument], the token being the value of
    [TELEGRAM_BOT_TOKEN], and each with the value of [TELEGRAM_CHAT_ID]
    as chat. *)
Theorem requests_go_to_the_configured_chat (w : World) :
  (forall url chat text,
     In (EvPostMessage url chat text) (trace (script w)) ->
     url = "https://api.telegram.org/bot" ++ Py.str (environ w "TELEGRAM_BOT_TOKEN")
             ++ "/sendMessage"
     /\ chat = environ w "TELEGRAM_CHAT_ID")
  /\ (forall url chat caption file_path,
        In (EvPostDocument url chat caption file_path) (trace (script w)) ->
        url = "https://api.telegram.org/bot" ++ Py.str (environ w "TELEGRAM_BOT_TOKEN")
                ++ "/sendDocument"
        /\ chat = environ w "TELEGRAM_CHAT_ID").
Proof.
  assert (H : Forall (configured_request w) (trace (script w))).
  { destruct (run_cases w) as [how H]. destruct how; open_case H;
      match goal with E : script w = _ |- _ => rewrite E end;
      cbn [trace fst];
      repeat (apply Forall_app; split);
      auto using send_message_configured, packaging_configured,
        cleanup_configured, upload_loop_configured.
    - repeat constructor.
    - apply upload_loop_configured.
    - apply upload_loop_configured.
    - apply upload_loop_configured. }
  rewrite Forall_forall in H. split.
  - intros url chat text Hin. exact (H _ Hin).
  - intros url chat caption file_path Hin. exact (H _ Hin).
Qed.

Lemma requests_go_to_the_configured_chat_witness :
  "https://api.telegram.org/botT0K/sendDocument"
  = "https://api.telegram.org/bot" ++ Py.str (environ Sample.quiet "TELEGRAM_BOT_TOKEN")
      ++ "/sendDocument"
  /\ Some "42" = environ Sample.quiet "TELEGRAM_CHAT_ID".
Proof.
  apply (proj2 (requests_go_to_the_configured_chat Sample.quiet)
           "https://api.telegram.org/botT0K/sendDocument" (Some "42")
           "Build Env (7) Part 1/1: full_build_env_7.zip"
           "telegram_package_temp/full_build_env_7.zip").
  vm_compute. do 18 right. left. reflexivity.
Defined.
